(** * AnkiCatalunya: the deck builder for the comarques of Catalonia

    A shallow embedding of [run.py], [src/WikiApi.py] and [src/models.py],
    and the properties of the specification that they decide.

    Conventions of the embedding.
    - Python [str] values are [string]s (byte strings, UTF-8 encoded); every
      literal the program compares against is ASCII.
    - Python exceptions are values of type [exn]; a call that can raise
      returns a [result].  Only subclasses of [Exception] are modelled.
    - The network, the JSON and HTML decoders and the file system are the
      fields of a [World]; effectful functions live in the monad [M], which
      threads the world and keeps the state reached when an exception is
      raised (a log line written before a raise stays written). *)

From Stdlib Require Import String Ascii ZArith List Lia Bool.
From stdpp Require Import base option list strings gmap.

Local Open Scope string_scope.

(* ===================================================================== *)
(** * Python strings *)
(* ===================================================================== *)

Module PyStr.

(** [needle in s]. *)
Fixpoint contains (needle s : string) : bool :=
  String.prefix needle s ||
  match s with
  | EmptyString => false
  | String _ s' => contains needle s'
  end.

(** [s.startswith(p)]. *)
Definition startswith (p s : string) : bool := String.prefix p s.

(** [s.endswith(suffix)]. *)
Fixpoint endswith (suffix s : string) : bool :=
  String.eqb suffix s ||
  match s with
  | EmptyString => false
  | String _ s' => endswith suffix s'
  end.

(** [s.replace(old, new)] for a non-empty [old]: the occurrences of [old]
    are found left to right and do not overlap.  [skip] counts the
    characters of an occurrence that are still to be dropped. *)
Fixpoint replace_from (old new : string) (skip : nat) (s : string) : string :=
  match s with
  | EmptyString => EmptyString
  | String c s' =>
      match skip with
      | S k => replace_from old new k s'
      | O =>
          if String.prefix old s
          then new ++ replace_from old new (String.length old - 1) s'
          else String c (replace_from old new 0 s')
      end
  end.

(** [s.replace] with an empty [old] puts [new] before every character and
    at the end. *)
Fixpoint intersperse (new s : string) : string :=
  match s with
  | EmptyString => new
  | String c s' => new ++ String c (intersperse new s')
  end.

Definition replace (old new s : string) : string :=
  match old with
  | EmptyString => intersperse new s
  | String _ _ => replace_from old new 0 s
  end.

(** [s.split(sep)] for a one-character separator; the result is never
    empty. *)
Fixpoint split (sep : ascii) (s : string) : list string :=
  match s with
  | EmptyString => [EmptyString]
  | String c s' =>
      if Ascii.eqb c sep then EmptyString :: split sep s'
      else match split sep s' with
           | h :: t => String c h :: t
           | [] => [String c EmptyString]
           end
  end.

(** [l[-1]] on a list of strings that is known to be non-empty. *)
Definition last (l : list string) : string := List.last l EmptyString.

(** [sep.join(l)]. *)
Definition join (sep : string) (l : list string) : string :=
  String.concat sep l.

(** ASCII lower-casing, the instance of [str.lower] used in examples. *)
Definition lower_ascii (c : ascii) : ascii :=
  let n := nat_of_ascii c in
  if (65 <=? n)%nat && (n <=? 90)%nat then ascii_of_nat (n + 32) else c.

Fixpoint lower (s : string) : string :=
  match s with
  | EmptyString => EmptyString
  | String c s' => String (lower_ascii c) (lower s')
  end.

(** Truthiness of an [Optional[str]]: [None] and the empty string are
    falsy. *)
Definition truthy (o : option string) : bool :=
  match o with
  | None => false
  | Some EmptyString => false
  | Some (String _ _) => true
  end.

(** [str(x)] of an [Optional[str]], as an f-string renders it. *)
Definition str_of (o : option string) : string :=
  match o with
  | None => "None"
  | Some s => s
  end.

(** Decimal rendering of a non-negative integer. *)
Fixpoint digits (fuel n : nat) (acc : string) : string :=
  match fuel with
  | O => acc
  | S fuel' =>
      let d := String (ascii_of_nat (48 + n mod 10)) acc in
      if (n <? 10)%nat then d else digits fuel' (n / 10) d
  end.

Definition str_of_Z (z : Z) : string :=
  if (z <? 0)%Z then "-" ++ digits (S (Z.to_nat (- z))) (Z.to_nat (- z)) EmptyString
  else digits (S (Z.to_nat z)) (Z.to_nat z) EmptyString.

End PyStr.

(** [pathlib.PurePosixPath(s).name]: the last component of [s] once empty
    components and ["."] components are dropped, the empty string when none
    is left. *)
Definition path_parts (s : string) : list string :=
  List.filter (fun p => negb (String.eqb p EmptyString) && negb (String.eqb p "."))
              (PyStr.split "/" s).

Definition path_name (s : string) : string := PyStr.last (path_parts s).

(* ===================================================================== *)
(** * Exceptions and results *)
(* ===================================================================== *)

Inductive exn_class :=
  | HTTPError | ConnectionError | Timeout | RequestException
  | OSError | KeyError | IndexError | StopIteration
  | TypeError | AttributeError | ValueError | ParserRejectedMarkup.

Record exn := Exn { exn_cls : exn_class; exn_msg : string }.

(** [str(e)]. *)
Definition exn_str (e : exn) : string := exn_msg e.

(** The classes named in [except (HTTPError, ConnectionError, Timeout,
    RequestException)]. *)
Definition is_http_exc (e : exn) : bool :=
  match exn_cls e with
  | HTTPError | ConnectionError | Timeout | RequestException => true
  | _ => false
  end.

Inductive result (A : Type) :=
  | Ok (a : A)
  | Raise (e : exn).
Arguments Ok {A} a.
Arguments Raise {A} e.

Definition rbind {A B} (r : result A) (k : A -> result B) : result B :=
  match r with
  | Ok a => k a
  | Raise e => Raise e
  end.

(** [KeyError(k)] prints the [repr] of the key; the keys used are plain
    ASCII words. *)
Definition key_error (k : string) : exn := Exn KeyError ("'" ++ k ++ "'").

(** [d[k]] on an optional JSON member. *)
Definition getitem {A} (k : string) (o : option A) : result A :=
  match o with
  | Some a => Ok a
  | None => Raise (key_error k)
  end.

(* ===================================================================== *)
(** * models.py *)
(* ===================================================================== *)

Record ComarcaData := {
  comarca : string;
  capital : option string;
  map_url : option string;
  escut_url : option string
}.

(** [ComarcaData(comarca=c, capital=cap)]: the media fields default to
    [None]. *)
Definition mkComarcaData (c : string) (cap : option string) : ComarcaData :=
  {| comarca := c; capital := cap; map_url := None; escut_url := None |}.

Definition MEDIA_FILES : list string := ["map_url"; "escut_url"].

(** [getattr(comarca, field)] for the three optional fields. *)
Definition getattr (c : ComarcaData) (field : string) : option string :=
  if String.eqb field "capital" then capital c
  else if String.eqb field "map_url" then map_url c
  else if String.eqb field "escut_url" then escut_url c
  else None.

(** [setattr(data, f"{field}_url", path)] for [field] in [map], [escut]. *)
Definition set_media (c : ComarcaData) (field : string) (path : string)
  : ComarcaData :=
  if String.eqb field "map" then
    {| comarca := comarca c; capital := capital c;
       map_url := Some path; escut_url := escut_url c |}
  else if String.eqb field "escut" then
    {| comarca := comarca c; capital := capital c;
       map_url := map_url c; escut_url := Some path |}
  else c.


(* ===================================================================== *)
(** * The world the program runs in *)
(* ===================================================================== *)

(** An HTTP GET as [requests.get(url, params=..., headers=...)] issues it. *)
Record Request := {
  req_url : string;
  req_params : list (string * string);
  req_headers : list (string * string)
}.

(** What [requests] hands back: status line, final URL and body. *)
Record Response := {
  status_code : Z;
  reason : string;
  resp_url : string;
  content : string
}.

(** The JSON answers of the MediaWiki action API, at the shape the program
    subscripts: [query.pages.<id>.images[].title] and
    [query.pages.<id>.imageinfo[].url].  Every member the code reads with
    [d[k]] is optional, so that a missing key is a [KeyError]; [pages] keeps
    the order of the keys, as a Python [dict] does. *)
Record ImageRef := { ir_title : option string }.
Record ImageInfo := { ii_url : option string }.
Record PageEntry := {
  pe_images : option (list ImageRef);
  pe_imageinfo : option (list ImageInfo)
}.
Record Query := { q_pages : option (list (string * PageEntry)) }.
Record ApiResponse := { ar_query : option Query }.

(** The tree [BeautifulSoup(markup, 'html.parser')] builds: strings of the
    several [NavigableString] classes, and tags with their contents. *)
Inductive string_kind :=
  | NavigableString | CData | Comment | Doctype | Declaration
  | ProcessingInstruction | Script | Stylesheet | TemplateString
  | RubyTextString | RubyParenthesisString.

#[warnings="-register-all"]
Inductive node :=
  | Str (k : string_kind) (s : string)
  | Tag (name : string) (contents : list node).

Inductive level := WARNING | ERROR.

Record World := {
  (** the servers: the answer to a request, given the requests already
      issued (so that an answer may change over time); a request that
      [requests] cannot carry out is answered with the exception it raises,
      also when [requests] refuses the URL before any traffic *)
  net : list Request -> Request -> result Response;
  (** [Response.json()] on a body *)
  json_decode : string -> result ApiResponse;
  (** [BeautifulSoup(body, 'html.parser')]: the records it hands to
      [logging] while it decodes the body, and the document node, or the
      exception with which the parser rejects the markup *)
  html_parser : string -> list (level * string) * result node;
  (** [open(path, 'wb')] fails with this exception, if any *)
  open_fault : string -> option exn;
  (** [file.write(data)] (and the flush at close) fails with this exception,
      if any, after the given part of [data] reached the file *)
  write_fault : string -> string -> option (string * exn);
  (** the requests handed to [requests.get] so far, oldest first *)
  sent : list Request;
  (** the records handed to [logging], oldest first *)
  log : list (level * string);
  (** what the program wrote, by the path as it spells it when it opens
      the file: two spellings of one file are two keys *)
  files : gmap string string
}.

Definition with_sent (w : World) (s : list Request) : World :=
  {| net := net w; json_decode := json_decode w; html_parser := html_parser w;
     open_fault := open_fault w; write_fault := write_fault w;
     sent := s; log := log w; files := files w |}.

Definition with_log (w : World) (l : list (level * string)) : World :=
  {| net := net w; json_decode := json_decode w; html_parser := html_parser w;
     open_fault := open_fault w; write_fault := write_fault w;
     sent := sent w; log := l; files := files w |}.

Definition with_files (w : World) (f : gmap string string) : World :=
  {| net := net w; json_decode := json_decode w; html_parser := html_parser w;
     open_fault := open_fault w; write_fault := write_fault w;
     sent := sent w; log := log w; files := f |}.

(** ** The monad of effectful Python code *)

Definition M (A : Type) : Type := World -> result A * World.

Definition ret {A} (a : A) : M A := fun w => (Ok a, w).

Definition raise {A} (e : exn) : M A := fun w => (Raise e, w).

Definition bind {A B} (m : M A) (k : A -> M B) : M B :=
  fun w =>
    match m w with
    | (Ok a, w') => k a w'
    | (Raise e, w') => (Raise e, w')
    end.

(** [try: m  except <classes accepted by catches> as e: handler e]. *)
Definition try_except {A} (m : M A) (catches : exn -> bool)
    (handler : exn -> M A) : M A :=
  fun w =>
    match m w with
    | (Ok a, w') => (Ok a, w')
    | (Raise e, w') => if catches e then handler e w' else (Raise e, w')
    end.

Definition lift {A} (r : result A) : M A := fun w => (r, w).

Declare Scope py_scope.
Delimit Scope py_scope with py.
Notation "x <- m ;; k" := (bind m (fun x => k))
  (at level 100, m at next level, right associativity) : py_scope.
Notation "m ;;; k" := (bind m (fun _ => k))
  (at level 100, right associativity) : py_scope.
Local Open Scope py_scope.

(** [[f(x) for x in l]] with an effectful [f], left to right. *)
Fixpoint mapM {A B} (f : A -> M B) (l : list A) : M (list B) :=
  match l with
  | [] => ret []
  | x :: xs => y <- f x ;; ys <- mapM f xs ;; ret (y :: ys)
  end.

(** ** logging *)

Definition logging (lv : level) (msg : string) : M unit :=
  fun w => (Ok tt, with_log w (log w ++ [(lv, msg)])).

Definition logging_warning := logging WARNING.
Definition logging_error := logging ERROR.

(** ** requests *)

(** [requests.get(url, params=params, headers=headers)]. *)
Definition requests_get (url : string) (params headers : list (string * string))
  : M Response :=
  fun w =>
    let rq := {| req_url := url; req_params := params; req_headers := headers |} in
    (net w (sent w) rq, with_sent w (sent w ++ [rq])).

(** [response.json()]. *)
Definition json (r : Response) : M ApiResponse :=
  fun w => (json_decode w (content r), w).

(** [response.raise_for_status()]. *)
Definition raise_for_status (r : Response) : M unit :=
  let st := status_code r in
  if (400 <=? st)%Z && (st <? 500)%Z then
    raise (Exn HTTPError (PyStr.str_of_Z st ++ " Client Error: " ++ reason r
                          ++ " for url: " ++ resp_url r))
  else if (500 <=? st)%Z && (st <? 600)%Z then
    raise (Exn HTTPError (PyStr.str_of_Z st ++ " Server Error: " ++ reason r
                          ++ " for url: " ++ resp_url r))
  else ret tt.

(** [with open(filename, 'wb') as file: file.write(data)]: opening creates
    or truncates the file before anything is written. *)
Definition write_binary (filename data : string) : M unit :=
  fun w =>
    match open_fault w filename with
    | Some e => (Raise e, w)
    | None =>
        match write_fault w filename data with
        | Some (part, e) => (Raise e, with_files w (<[filename := part]> (files w)))
        | None => (Ok tt, with_files w (<[filename := data]> (files w)))
        end
    end.

(** ** wikipediaapi *)

(** A [WikipediaPage]: its title, its namespace and the titles of the values
    of [page.categories], in iteration order. *)
Record WikipediaPage := {
  page_title : string;
  page_ns : Z;
  page_categories : list string
}.

(** [wikipediaapi.Namespace.CATEGORY]. *)
Definition Namespace_CATEGORY : Z := 14.

(** A [wikipediaapi.Wikipedia] client, seen through the one thing the program
    asks of it: [list(wiki.page(t).categorymembers.values())]. *)
Definition Wikipedia := string -> list WikipediaPage.

(** ** BeautifulSoup *)

(** The descendants of a node in document order, each with its [.parent]. *)
Fixpoint descendants (n : node) : list (node * node) :=
  match n with
  | Str _ _ => []
  | Tag _ cs =>
      (fix go (l : list node) : list (node * node) :=
         match l with
         | [] => []
         | c :: r => (n, c) :: descendants c ++ go r
         end) cs
  end.

(** [tag.string]: the only child when it is a string, the [.string] of the
    only child when it is a tag, [None] otherwise. *)
Fixpoint tag_string (n : node) : option string :=
  match n with
  | Str _ s => Some s
  | Tag _ [c] => tag_string c
  | Tag _ _ => None
  end.

Definition is_tag (name : string) (n : node) : bool :=
  match n with
  | Tag nm _ => String.eqb nm name
  | Str _ _ => false
  end.

(** The filter of [find(name, string=s)]: a tag called [name] whose
    [.string] is exactly [s]. *)
Definition tag_matches (name : string) (s : option string) (n : node) : bool :=
  is_tag name n &&
  match s with
  | None => true
  | Some want =>
      match tag_string n with
      | Some have => String.eqb have want
      | None => false
      end
  end.

(** [root.find(name, string=s)]: the first match among the descendants;
    returned with its parent. *)
Definition soup_find (root : node) (name : string) (s : option string)
  : option (node * node) :=
  List.find (fun pc => tag_matches name s (snd pc)) (descendants root).

(** [tag.text]: the strings below the tag that are plain text or CDATA, in
    document order, concatenated. *)
Fixpoint get_text (n : node) : string :=
  match n with
  | Str NavigableString s | Str CData s => s
  | Str _ _ => EmptyString
  | Tag _ cs =>
      (fix go (l : list node) : string :=
         match l with
         | [] => EmptyString
         | c :: r => get_text c ++ go r
         end) cs
  end.

(** [BeautifulSoup(body, 'html.parser')]: what the library logs is logged,
    then the tree is returned or the rejection raised. *)
Definition BeautifulSoup (body : string) : M node :=
  fun w =>
    let (records, soup) := html_parser w body in
    (soup, with_log w (log w ++ records)).

(** ** genanki *)

Record Template := { tpl_name : string; qfmt : string; afmt : string }.

Record Model := {
  model_id : Z;
  model_name : string;
  model_fields : list string;
  model_templates : list Template;
  model_css : string
}.

(** A note keeps the list it was given; [None] is Python's [None]. *)
Record Note := { note_model : Model; note_fields : list (option string) }.

(* ===================================================================== *)
(** * run.py *)
(* ===================================================================== *)

Module run.

Definition WIKI_USERAGENT : string :=
  "Anki Catalunya (https://github.com/CaiClone)".

Section Categories.

(** [str.lower]; the category filter is stated for any lower-casing
    function, [PyStr.lower] being the one the examples run with. *)
Variable lower : string -> string.

Definition is_comarca (page : WikipediaPage) : bool :=
  if PyStr.contains "de catalunya" (lower (page_title page)) then false
  else
    existsb (fun category =>
               String.eqb "categoria:comarques de catalunya" (lower category))
            (page_categories page).

Definition get_comarques_categories (wiki : Wikipedia) : list WikipediaPage :=
  let comarques_pages := wiki "Category:Comarques de Catalunya" in
  List.filter (fun page => (page_ns page =? Namespace_CATEGORY)%Z
                           && is_comarca page)
              comarques_pages.

End Categories.

(** [next(iter(d))]: the first key of a dict. *)
Definition next_iter {A} (d : list (string * A)) : result string :=
  match d with
  | [] => Raise (Exn StopIteration EmptyString)
  | (k, _) :: _ => Ok k
  end.

(** [d[k]] on a dict. *)
Definition dict_get {A} (d : list (string * A)) (k : string) : result A :=
  match List.find (fun kv => String.eqb (fst kv) k) d with
  | Some (_, v) => Ok v
  | None => Raise (key_error k)
  end.

(** [response["query"]["pages"]]; the program writes the subscripts out
    at every use, and they are evaluated once here. *)
Definition query_pages (response : ApiResponse)
  : result (list (string * PageEntry)) :=
  rbind (getitem "query" (ar_query response)) (fun q =>
  getitem "pages" (q_pages q)).

(** [[image["title"] for image in images if image["title"].endswith('.svg')]] *)
Fixpoint svg_titles (images : list ImageRef) : result (list string) :=
  match images with
  | [] => Ok []
  | image :: rest =>
      rbind (getitem "title" (ir_title image)) (fun t =>
      if PyStr.endswith ".svg" t then
        rbind (getitem "title" (ir_title image)) (fun t' =>
        rbind (svg_titles rest) (fun ts => Ok (t' :: ts)))
      else svg_titles rest)
  end.

Definition get_image_titles (page_title : string) : M (list string) :=
  let url := "https://ca.wikipedia.org/w/api.php" in
  let params := [("action", "query"); ("prop", "images");
                 ("format", "json"); ("titles", page_title)] in
  r <- requests_get url params [] ;;
  response <- json r ;;
  pages <- lift (query_pages response) ;;
  page_id <- lift (next_iter pages) ;;
  entry <- lift (dict_get pages page_id) ;;
  images <- lift (getitem "images" (pe_images entry)) ;;
  lift (svg_titles images).

Definition get_image_info (image_title : string) : M (option string) :=
  let url := "https://commons.wikimedia.org/w/api.php" in
  let params := [("action", "query"); ("prop", "imageinfo");
                 ("format", "json"); ("iiprop", "url");
                 ("titles", PyStr.replace "Fitxer:" "File:" image_title)] in
  r <- requests_get url params [] ;;
  response <- json r ;;
  pages <- lift (query_pages response) ;;
  page_id <- lift (next_iter pages) ;;
  entry <- lift (dict_get pages page_id) ;;
  match pe_imageinfo entry with
  | Some infos =>
      image_info <- lift (match infos with
                          | i :: _ => Ok i
                          | [] => Raise (Exn IndexError "list index out of range")
                          end) ;;
      u <- lift (getitem "url" (ii_url image_info)) ;;
      ret (Some u)
  | None =>
      logging_warning ("No image info found for " ++ image_title) ;;;
      ret None
  end.

(** [requests.get] refuses a URL that is [None] before any traffic.  A
    string that it refuses in the same way goes through [net], which answers
    with the exception of the refusal. *)
Definition missing_schema : exn :=
  Exn RequestException
      "Invalid URL 'None': No scheme supplied. Perhaps you meant https://None?".

Definition download_svg (url : option string) (filename : string) : M unit :=
  try_except
    (response <- match url with
                 | Some u => requests_get u [] [("User-Agent", WIKI_USERAGENT)]
                 | None => raise missing_schema
                 end ;;
     raise_for_status response ;;;
     write_binary filename (content response))
    (fun _ => true)
    (fun e => logging_error ("Failed to download " ++ PyStr.str_of url ++ ": "
                             ++ exn_str e)).

Definition get_comarca_capital_from_html (page_url : string) : M string :=
  response <- requests_get page_url [] [] ;;
  soup <- BeautifulSoup (content response) ;;
  let capital_row :=
    match soup_find soup "th" (Some "Capital") with
    | Some _ =>
        match soup_find soup "th" (Some "Capital") with
        | Some (parent, _) => Some parent
        | None => None
        end
    | None => None
    end in
  match capital_row with
  | Some row =>
      let capital_link := soup_find row "a" None in
      match capital_link with
      | Some (_, link) => ret (get_text link)
      | None => ret "Capital not found in the expected format"
      end
  | None => ret "Capital row not found"
  end.

(** The body of the [for urls, field in ...] loop of [get_comarca_data]. *)
Definition store_media (comarca_name comarca_path : string)
    (data : ComarcaData) (urls : list (option string)) (field : string)
  : M ComarcaData :=
  match urls with
  | [] =>
      logging_warning ("No " ++ field ++ " found for " ++ comarca_name) ;;;
      ret data
  | u :: _ =>
      let path := "imgs/" ++ comarca_path ++ "_" ++ field ++ ".svg" in
      download_svg u path ;;;
      ret (set_media data field path)
  end.

Definition get_comarca_data (comarca_name : string) : M ComarcaData :=
  images <- get_image_titles comarca_name ;;
  map_urls <- mapM get_image_info
                   (List.filter (PyStr.endswith "a Catalunya.svg") images) ;;
  escut_urls <- mapM get_image_info
                     (List.filter (PyStr.contains "Coat") images) ;;
  let comarca_path := PyStr.replace " " "_" comarca_name in
  cap <- get_comarca_capital_from_html
           ("https://ca.wikipedia.org/wiki/" ++ comarca_path) ;;
  let data := mkComarcaData comarca_name (Some cap) in
  data <- store_media comarca_name comarca_path data map_urls "map" ;;
  data <- store_media comarca_name comarca_path data escut_urls "escut" ;;
  ret data.

(** [[comarca.comarca for comarca in data if not getattr(comarca, field)]] *)
Definition missing (data : list ComarcaData) (field : string) : list string :=
  List.map comarca
    (List.filter (fun c => negb (PyStr.truthy (getattr c field))) data).

(** The body of the loop of [validate_data] for one [(field, required)]:
    [Some b] when the function returns [b] at this field. *)
Definition validate_field (data : list ComarcaData) (field : string)
    (required : bool) : M (option bool) :=
  let missing := missing data field in
  match missing with
  | [] => ret None
  | _ :: _ =>
      if required then
        logging_error ("Missing " ++ field ++ " for comarques: "
                       ++ PyStr.join "," missing) ;;;
        ret (Some false)
      else
        logging_warning ("Missing " ++ field ++ " for comarques: "
                         ++ PyStr.join "," missing) ;;;
        ret None
  end.

Fixpoint validate_loop (data : list ComarcaData)
    (fields : list (string * bool)) : M bool :=
  match fields with
  | [] => ret true
  | (field, required) :: rest =>
      r <- validate_field data field required ;;
      match r with
      | Some b => ret b
      | None => validate_loop data rest
      end
  end.

Definition validate_data (data : list ComarcaData) : M bool :=
  validate_loop data [("capital", true); ("map_url", true); ("escut_url", false)].

(** [create_model], given what [load_templates] and [load_style] read. *)
Definition create_model (templates : list Template) (style : string) : Model :=
  {| model_id := 1529025036;
     model_name := "Comarques Catalanes Model";
     model_fields := ["Capital"; "Capital hint"; "Capital info"; "Comarca";
                      "Comarca info"; "Escut"; "Escut similarity"; "Map"];
     model_templates := templates;
     model_css := style |}.

(** The one-character string holding a double quote. *)
Definition dquote : string := String (ascii_of_nat 34) EmptyString.

(** [Path(p)]: a [TypeError] when [p] is [None] (the wording of the message
    is that of Python 3.11). *)
Definition Path (p : option string) : result string :=
  match p with
  | Some s => Ok s
  | None =>
      Raise (Exn TypeError
                 "expected str, bytes or os.PathLike object, not NoneType")
  end.

(** The note of one record; the elements of the field list are evaluated
    in order. *)
Definition get_note (model : Model) (c : ComarcaData) : result Note :=
  rbind (Path (escut_url c)) (fun escut =>
  rbind (Path (map_url c)) (fun map =>
  Ok {| note_model := model;
        note_fields :=
          [ capital c;
            Some EmptyString;
            Some EmptyString;
            Some (comarca c);
            Some EmptyString;
            Some ("<img src=" ++ dquote ++ path_name escut ++ dquote ++ ">");
            Some EmptyString;
            Some ("<img src=" ++ dquote ++ path_name map ++ dquote ++ ">") ] |})).

Fixpoint get_notes (data : list ComarcaData) (model : Model)
  : result (list Note) :=
  match data with
  | [] => Ok []
  | c :: rest =>
      rbind (get_note model c) (fun n =>
      rbind (get_notes rest model) (fun ns => Ok (n :: ns)))
  end.

End run.

(* ===================================================================== *)
(** * src/WikiApi.py *)
(* ===================================================================== *)

Module WikiApi.

(** Modelled from the spec: the class [ComarcaPage] that WikiApi.py imports
    from [models] is not in models.py.  It is built from a name alone and
    carries the fields of the Subregion Record of the specification. *)
Record ComarcaPage := {
  cp_comarca : string;
  cp_capital : option string;
  cp_map_url : option string;
  cp_escut_url : option string
}.

(** [ComarcaPage(name)]. *)
Definition mkComarcaPage (name : string) : ComarcaPage :=
  {| cp_comarca := name; cp_capital := None;
     cp_map_url := None; cp_escut_url := None |}.

(** [comarca.map_url = v]. *)
Definition set_map_url (c : ComarcaPage) (v : option string) : ComarcaPage :=
  {| cp_comarca := cp_comarca c; cp_capital := cp_capital c;
     cp_map_url := v; cp_escut_url := cp_escut_url c |}.

(** [comarca.escut_url = v]. *)
Definition set_escut_url (c : ComarcaPage) (v : option string) : ComarcaPage :=
  {| cp_comarca := cp_comarca c; cp_capital := cp_capital c;
     cp_map_url := cp_map_url c; cp_escut_url := v |}.

(** What a decorated method can hand back: its own value, or the default
    of the decorator. *)
Definition return_none {A} : option A := None.
Definition return_empty_list {A} : list A := [].

(** [@catch_http_errors(default_return=...)] around the body [m] of the
    function called [func_name]. *)
Definition catch_http_errors {A} (default_return : A) (func_name : string)
    (m : M A) : M A :=
  try_except m is_http_exc
    (fun http_exc =>
       logging_error ("HTTP exception in " ++ func_name ++ ": "
                      ++ exn_str http_exc) ;;;
       ret default_return).

Section WikipediaAPIHandler.

Variable lower : string -> string.

Definition is_comarca (page : WikipediaPage) : bool :=
  if PyStr.contains "de catalunya" (lower (page_title page)) then false
  else
    existsb (fun category =>
               String.eqb "categoria:comarques de catalunya" (lower category))
            (page_categories page).

Definition get_comarques (wiki : Wikipedia) : list ComarcaPage :=
  let comarques_pages := wiki "Category:Comarques de Catalunya" in
  let page_categories :=
    List.filter (fun page => (page_ns page =? Namespace_CATEGORY)%Z
                             && is_comarca page)
                comarques_pages in
  List.map (fun page =>
              mkComarcaPage (PyStr.last (PyStr.split ":" (page_title page))))
           page_categories.

End WikipediaAPIHandler.

Definition commons_api_url : string := "https://commons.wikimedia.org/w/api.php".
Definition wikipedia_api_url : string := "https://ca.wikipedia.org/w/api.php".

(** [response.text] where [response] is what [.json()] returned: a decoded
    JSON value has no such attribute. *)
Definition response_text (response : ApiResponse) : result string :=
  Raise (Exn AttributeError "'dict' object has no attribute 'text'").

(** [print(s)]: standard output is not part of the world. *)
Definition print (s : string) : M unit := ret tt.

Definition get_image_info (image_title : string) : M (option string) :=
  catch_http_errors return_none "get_image_info"
    (let params := [("action", "query"); ("prop", "imageinfo");
                    ("format", "json"); ("iiprop", "url");
                    ("titles", PyStr.replace "Fitxer:" "File:" image_title)] in
     r <- requests_get commons_api_url params [] ;;
     response <- json r ;;
     text <- lift (response_text response) ;;
     print text ;;;
     print "Do I really need the iter" ;;;
     pages <- lift (run.query_pages response) ;;
     page_id <- lift (run.next_iter pages) ;;
     entry <- lift (run.dict_get pages page_id) ;;
     match pe_imageinfo entry with
     | Some infos =>
         image_info <- lift (match infos with
                             | i :: _ => Ok i
                             | [] => Raise (Exn IndexError "list index out of range")
                             end) ;;
         u <- lift (getitem "url" (ii_url image_info)) ;;
         ret (Some u)
     | None => ret None
     end).

(** [[image["title"] for image in images]] *)
Fixpoint titles_of (images : list ImageRef) : result (list string) :=
  match images with
  | [] => Ok []
  | image :: rest =>
      rbind (getitem "title" (ir_title image)) (fun t =>
      rbind (titles_of rest) (fun ts => Ok (t :: ts)))
  end.

Definition get_image_titles (page_title : string) : M (list string) :=
  catch_http_errors return_empty_list "get_image_titles"
    (let params := [("action", "query"); ("prop", "images");
                    ("format", "json"); ("titles", page_title)] in
     r <- requests_get wikipedia_api_url params [] ;;
     response <- json r ;;
     pages <- lift (run.query_pages response) ;;
     page_id <- lift (run.next_iter pages) ;;
     entry <- lift (run.dict_get pages page_id) ;;
     match pe_images entry with
     | Some images => lift (titles_of images)
     | None =>
         logging_warning ("No images found for " ++ page_title) ;;;
         ret []
     end).

(** The [for title in image_titles] loop; the record is an object shared
    with the caller, so the assignments made before an exception stay. *)
Fixpoint for_titles (image_titles : list string) (comarca : ComarcaPage)
    (w : World) : result unit * ComarcaPage * World :=
  match image_titles with
  | [] => (Ok tt, comarca, w)
  | title :: rest =>
      if PyStr.contains "Mapa" title then
        match get_image_info title w with
        | (Ok v, w') => for_titles rest (set_map_url comarca v) w'
        | (Raise e, w') => (Raise e, comarca, w')
        end
      else if PyStr.contains "Escut" title
              || PyStr.contains "Coat of arms" title then
        match get_image_info title w with
        | (Ok v, w') => for_titles rest (set_escut_url comarca v) w'
        | (Raise e, w') => (Raise e, comarca, w')
        end
      else for_titles rest comarca w
  end.

(** The value of a call of [get_images_for_comarca]: [None] when the body
    ends, the empty list when the decorator supplies its default. *)
Inductive populate_value := ReturnedNone | ReturnedEmptyList.

(** Code that works on a record it was handed: the record is returned next
    to the world, also when an exception is raised. *)
Definition MO (A : Type) : Type :=
  ComarcaPage -> World -> result A * ComarcaPage * World.

(** [@catch_http_errors(default_return=...)] around such code. *)
Definition catch_http_errors_on {A} (default_return : A) (func_name : string)
    (m : MO A) : MO A :=
  fun comarca w =>
    match m comarca w with
    | (Ok a, comarca', w') => (Ok a, comarca', w')
    | (Raise http_exc, comarca', w') =>
        if is_http_exc http_exc then
          (Ok default_return, comarca',
           snd (logging_error ("HTTP exception in " ++ func_name ++ ": "
                               ++ exn_str http_exc) w'))
        else (Raise http_exc, comarca', w')
    end.

Definition get_images_for_comarca : MO populate_value :=
  catch_http_errors_on ReturnedEmptyList "get_images_for_comarca"
    (fun comarca w =>
       match get_image_titles (cp_comarca comarca) w with
       | (Ok image_titles, w1) =>
           match for_titles image_titles comarca w1 with
           | (Ok _, comarca', w2) => (Ok ReturnedNone, comarca', w2)
           | (Raise e, comarca', w2) => (Raise e, comarca', w2)
           end
       | (Raise e, w1) => (Raise e, comarca, w1)
       end).

End WikiApi.

(* ===================================================================== *)
(** * Vocabulary of the properties and test data *)
(* ===================================================================== *)

(** ** Records *)

(** The record of the end-to-end example of the specification. *)
Definition bages : ComarcaData :=
  {| comarca := "Bages"; capital := Some "Manresa";
     map_url := Some "imgs/Bages_map.svg";
     escut_url := Some "imgs/Bages_escut.svg" |}.

(** A record with all of its optional fields set. *)
Definition fully_set (c : ComarcaData) : Prop :=
  is_Some (capital c) /\ is_Some (map_url c) /\ is_Some (escut_url c).

(** A record whose two required fields are set (truthy). *)
Definition required_present (c : ComarcaData) : Prop :=
  PyStr.truthy (capital c) = true /\ PyStr.truthy (map_url c) = true.

(** A world without network: every request fails to connect, nothing has
    been logged and the disk is empty. *)
Definition offline : World :=
  {| net := fun _ _ => Raise (Exn ConnectionError "Network is unreachable");
     json_decode := fun _ => Raise (Exn RequestException "Expecting value");
     html_parser := fun _ => ([], Ok (Tag "[document]" []));
     open_fault := fun _ => None;
     write_fault := fun _ _ => None;
     sent := [];
     log := [];
     files := ∅ |}.

(** Three records next to that of Bages: Anoia has no coat of arms, Garraf
    has no capital, Moianes has no map. *)
Definition anoia : ComarcaData :=
  {| comarca := "Anoia"; capital := Some "Igualada";
     map_url := Some "imgs/Anoia_map.svg"; escut_url := None |}.

Definition garraf : ComarcaData :=
  {| comarca := "Garraf"; capital := None;
     map_url := Some "imgs/Garraf_map.svg";
     escut_url := Some "imgs/Garraf_escut.svg" |}.

Definition moianes : ComarcaData :=
  {| comarca := "Moianes"; capital := Some "Moia";
     map_url := None; escut_url := Some "imgs/Moianes_escut.svg" |}.

(** ** The category filter *)

Section CategoryVocabulary.

Variable lower : string -> string.

(** The title contains "de catalunya", case-insensitively. *)
Definition title_excluded (page : WikipediaPage) : Prop :=
  PyStr.contains "de catalunya" (lower (page_title page)) = true.

(** Some parent category is "categoria:comarques de catalunya",
    case-insensitively. *)
Definition has_comarques_parent (page : WikipediaPage) : Prop :=
  exists category,
    In category (page_categories page) /\
    lower category = "categoria:comarques de catalunya".

(** The three conditions under which a category member is kept. *)
Definition kept (page : WikipediaPage) : Prop :=
  page_ns page = Namespace_CATEGORY /\
  ~ title_excluded page /\
  has_comarques_parent page.

End CategoryVocabulary.

(** A category listing with one comarca, one meta-category, one category
    filed elsewhere, one article and one comarca whose title has a prefix
    in capitals. *)
Definition sample_wiki : Wikipedia :=
  fun _ =>
    [ {| page_title := "Categoria:Bages"; page_ns := 14;
         page_categories := ["Categoria:Comarques de Catalunya"] |};
      {| page_title := "Categoria:Llistes de comarques de Catalunya"; page_ns := 14;
         page_categories := ["Categoria:Comarques de Catalunya"] |};
      {| page_title := "Categoria:Vegueries"; page_ns := 14;
         page_categories := ["Categoria:Geografia de Catalunya"] |};
      {| page_title := "Comarques"; page_ns := 0;
         page_categories := ["Categoria:Comarques de Catalunya"] |};
      {| page_title := "CATEGORIA:Anoia"; page_ns := 14;
         page_categories := ["Categoria:Geografia"; "categoria:COMARQUES de Catalunya"] |} ].

(** ** The capital row *)

(** The header cell as the code looks for it, with
    [find('th', string='Capital')]: a [th] tag whose [.string] is that word.
    The [.string] of a tag is its only child when that is a string of any
    class, comments included, or the [.string] of its only child. *)
Definition is_capital_header (n : node) : Prop :=
  is_tag "th" n = true /\ tag_string n = Some "Capital".

(** The header cell in the words of the specification: a [th] tag whose
    exact text, the text [.text] gives, is "Capital". *)
Definition exact_text_header (n : node) : Prop :=
  is_tag "th" n = true /\ get_text n = "Capital".

(** A hyperlink: an [a] tag. *)
Definition is_link (n : node) : Prop := is_tag "a" n = true.

(** [elem], whose parent is [parent], is the first descendant of [root] in
    document order that satisfies [P]. *)
Definition first_below (P : node -> Prop) (root parent elem : node) : Prop :=
  exists before after,
    descendants root = (before ++ (parent, elem) :: after)%list /\
    P elem /\
    Forall (fun pc => ~ P (snd pc)) before.

(** No descendant of [root] satisfies [P]. *)
Definition none_below (P : node -> Prop) (root : node) : Prop :=
  forall parent elem, In (parent, elem) (descendants root) -> ~ P elem.

Definition text (s : string) : node := Str NavigableString s.

(** Parse trees of three pages: an info table with the capital linked, one
    whose capital is not linked, and a page without the row. *)
Definition page_with_capital : node :=
  Tag "[document]"
    [ Tag "table"
        [ Tag "tr" [ Tag "th" [text "Nom"]; Tag "td" [Tag "a" [text "Bages"]] ];
          Tag "tr" [ Tag "th" [text "Capital"];
                     Tag "td" [ text " "; Tag "a" [Tag "b" [text "Man"]; text "resa"];
                                Tag "a" [text "Cardona"] ] ] ] ].

Definition page_without_link : node :=
  Tag "[document]"
    [ Tag "table" [ Tag "tr" [ Tag "th" [text "Capital"]; Tag "td" [text "Manresa"] ] ];
      Tag "a" [text "Portada"] ].

Definition page_without_row : node :=
  Tag "[document]"
    [ Tag "table" [ Tag "tr" [ Tag "th" [text "Capital "];
                               Tag "td" [Tag "a" [text "Manresa"]] ] ] ].

(** Two more parse trees: a header cell that holds the word and a line
    break, and one that holds the word in a comment only. *)
Definition page_header_with_break : node :=
  Tag "[document]"
    [ Tag "table"
        [ Tag "tr" [ Tag "th" [text "Capital"; Tag "br" []];
                     Tag "td" [Tag "a" [text "Manresa"]] ] ] ].

Definition page_comment_header : node :=
  Tag "[document]"
    [ Tag "table"
        [ Tag "tr" [ Tag "th" [Str Comment "Capital"];
                     Tag "td" [Tag "a" [text "Comentari"]] ] ] ].

(** A world in which every page is answered with status 200 and parses to
    [tree]. *)
Definition serving (tree : node) : World :=
  {| net := fun _ rq => Ok {| status_code := 200; reason := "OK";
                              resp_url := req_url rq; content := "<html>" |};
     json_decode := fun _ => Raise (Exn RequestException "Expecting value");
     html_parser := fun _ => ([], Ok tree);
     open_fault := fun _ => None;
     write_fault := fun _ _ => None;
     sent := [];
     log := [];
     files := ∅ |}.

(** ** Downloads *)

(** The request [download_svg] makes for [u]. *)
Definition download_request (u : string) : Request :=
  {| req_url := u; req_params := [];
     req_headers := [("User-Agent", run.WIKI_USERAGENT)] |}.

(** The line [download_svg] logs when [e] is caught. *)
Definition download_failure (url : option string) (e : exn) : level * string :=
  (ERROR, "Failed to download " ++ PyStr.str_of url ++ ": " ++ exn_str e).

(** [response.raise_for_status()] lets the response through. *)
Definition status_ok (r : Response) : Prop :=
  (status_code r < 400 \/ 600 <= status_code r)%Z.

(** A world whose servers answer every request with an image, and whose disk
    fills up while the image is written: four bytes reach the file. *)
Definition disk_full : World :=
  {| net := fun _ rq => Ok {| status_code := 200; reason := "OK";
                              resp_url := req_url rq;
                              content := "<svg xmlns='http://www.w3.org/2000/svg'/>" |};
     json_decode := fun _ => Raise (Exn RequestException "Expecting value");
     html_parser := fun _ => ([], Ok (Tag "[document]" []));
     open_fault := fun _ => None;
     write_fault := fun _ _ =>
       Some ("<svg", Exn OSError "[Errno 28] No space left on device");
     sent := [];
     log := [];
     files := ∅ |}.

(** ** Image titles *)

(** The request for the images of a page, and the one for the URL of an
    image, the latter by the value of its [titles] parameter. *)
Definition images_request (page_title : string) : Request :=
  {| req_url := "https://ca.wikipedia.org/w/api.php";
     req_params := [("action", "query"); ("prop", "images");
                    ("format", "json"); ("titles", page_title)];
     req_headers := [] |}.

Definition imageinfo_request (titles : string) : Request :=
  {| req_url := "https://commons.wikimedia.org/w/api.php";
     req_params := [("action", "query"); ("prop", "imageinfo");
                    ("format", "json"); ("iiprop", "url"); ("titles", titles)];
     req_headers := [] |}.

(** The answer of the service for a page that has no images: one entry,
    without the [images] member. *)
Definition no_images_response : ApiResponse :=
  {| ar_query :=
       Some {| q_pages :=
                 Some [("12345", {| pe_images := None; pe_imageinfo := None |})] |} |}.

Definition no_images_world : World :=
  {| net := fun _ rq => Ok {| status_code := 200; reason := "OK";
                              resp_url := req_url rq; content := "{}" |};
     json_decode := fun _ => Ok no_images_response;
     html_parser := fun _ => ([], Ok (Tag "[document]" []));
     open_fault := fun _ => None;
     write_fault := fun _ _ => None;
     sent := [];
     log := [];
     files := ∅ |}.

(** The rewrite of the title as the specification words it: a leading
    "Fitxer:" becomes "File:", any other title is left as it is. *)
Definition rewrite_leading_prefix (image_title : string) : string :=
  if PyStr.startswith "Fitxer:" image_title
  then "File:" ++ String.substring 7 (String.length image_title - 7) image_title
  else image_title.

(** A computation that makes no request. *)
Definition offline_step {A} (m : M A) : Prop :=
  forall w, sent (snd (m w)) = sent w.

(** ** Assembling a record *)

(** The titles among which [get_comarca_data] looks for a map and for a
    coat of arms. *)
Definition map_candidates (images : list string) : list string :=
  List.filter (PyStr.endswith "a Catalunya.svg") images.

Definition escut_candidates (images : list string) : list string :=
  List.filter (PyStr.contains "Coat") images.

(** A world in which the lookups for Bages succeed and the download of the
    image does not: the page lists a location map and a photograph, the
    media repository knows the map, the page of the comarca has its info
    table, and the file server cannot be reached. *)
Definition bages_images : ApiResponse :=
  {| ar_query :=
       Some {| q_pages :=
         Some [("38279",
                {| pe_images :=
                     Some [ {| ir_title := Some "Fitxer:Localitzacio del Bages a Catalunya.svg" |};
                            {| ir_title := Some "Fitxer:Montserrat.jpg" |} ];
                   pe_imageinfo := None |})] |} |}.

Definition bages_imageinfo : ApiResponse :=
  {| ar_query :=
       Some {| q_pages :=
         Some [("-1",
                {| pe_images := None;
                   pe_imageinfo :=
                     Some [ {| ii_url := Some "https://upload.wikimedia.org/bages.svg" |} ] |})] |} |}.

Definition unreachable_files : World :=
  {| net := fun _ rq =>
       if String.eqb (req_url rq) "https://ca.wikipedia.org/w/api.php" then
         Ok {| status_code := 200; reason := "OK"; resp_url := req_url rq;
               content := "images" |}
       else if String.eqb (req_url rq) "https://commons.wikimedia.org/w/api.php" then
         Ok {| status_code := 200; reason := "OK"; resp_url := req_url rq;
               content := "imageinfo" |}
       else if String.eqb (req_url rq) "https://ca.wikipedia.org/wiki/Bages" then
         Ok {| status_code := 200; reason := "OK"; resp_url := req_url rq;
               content := "<html>" |}
       else Raise (Exn ConnectionError "Network is unreachable");
     json_decode := fun body =>
       if String.eqb body "images" then Ok bages_images
       else if String.eqb body "imageinfo" then Ok bages_imageinfo
       else Raise (Exn RequestException "Expecting value");
     html_parser := fun _ => ([], Ok page_with_capital);
     open_fault := fun _ => None;
     write_fault := fun _ _ => None;
     sent := [];
     log := [];
     files := ∅ |}.

(* ===================================================================== *)
(** * run.py: templates, deck and the end of [main] *)
(* ===================================================================== *)

Module packaging.

(** The newline character and the separator ["\n--\n"] of a template. *)
Definition nl : string := String (ascii_of_nat 10) EmptyString.
Definition template_separator : string := nl ++ "--" ++ nl.

(** [s.split(sep)] for a non-empty string [sep]: the occurrences of [sep] are
    found left to right and do not overlap; the head of the result is the
    piece being read.  [skip] counts the characters of an occurrence that are
    still to be dropped. *)
Fixpoint split_from (sep : string) (skip : nat) (s : string) : list string :=
  match s with
  | EmptyString => [EmptyString]
  | String c s' =>
      match skip with
      | S k => split_from sep k s'
      | O =>
          if String.prefix sep s
          then EmptyString :: split_from sep (String.length sep - 1) s'
          else match split_from sep 0 s' with
               | h :: t => String c h :: t
               | [] => [String c EmptyString]
               end
      end
  end.

Definition str_split (sep s : string) : list string := split_from sep 0 s.

(** [s.rfind(ch)], [None] standing for -1. *)
Fixpoint rfind (ch : ascii) (s : string) : option nat :=
  match s with
  | EmptyString => None
  | String c s' =>
      match rfind ch s' with
      | Some i => Some (S i)
      | None => if Ascii.eqb c ch then Some 0 else None
      end
  end.

(** [Path(p).stem], as Python 3.11 computes it: the name up to its last dot,
    unless that dot is the first or the last character of the name. *)
Definition path_stem (p : string) : string :=
  let name := path_name p in
  match rfind "." name with
  | Some i =>
      if (0 <? i)%nat && (i <? String.length name - 1)%nat
      then String.substring 0 i name
      else name
  | None => name
  end.

(** The body of the loop of [load_templates], for a file and the text read
    from it: the unpacking [front, back = ...] wants exactly two pieces. *)
Definition load_template (file text : string) : result Template :=
  match str_split template_separator text with
  | [front; back] =>
      Ok {| tpl_name := path_stem file; qfmt := front; afmt := back |}
  | [] | [_] =>
      Raise (Exn ValueError "not enough values to unpack (expected 2, got 1)")
  | _ :: _ :: _ :: _ =>
      Raise (Exn ValueError "too many values to unpack (expected 2)")
  end.

(** [load_templates], given what [glob.glob] found and, for each file, the
    text [f.read()] returned. *)
Fixpoint load_templates (template_files : list (string * string))
  : result (list Template) :=
  match template_files with
  | [] => Ok []
  | (file, text) :: rest =>
      rbind (load_template file text) (fun t =>
      rbind (load_templates rest) (fun ts => Ok (t :: ts)))
  end.

(** [genanki.Deck] and [genanki.Package]. *)
Record Deck := { deck_id : Z; deck_name : string; deck_notes : list Note }.

Record Package := { pkg_deck : Deck; pkg_media_files : list string }.

(** [deck.add_note(note)]. *)
Definition add_note (d : Deck) (n : Note) : Deck :=
  {| deck_id := deck_id d; deck_name := deck_name d;
     deck_notes := deck_notes d ++ [n] |}.

Definition create_deck (notes : list Note) (imgs : list string) : Package :=
  let deck :=
    List.fold_left add_note notes
      {| deck_id := 1859898804; deck_name := "Comarques Catalanes";
         deck_notes := [] |} in
  {| pkg_deck := deck; pkg_media_files := imgs |}.

(** [[getattr(comarca, field) for comarca in data
      for field in ComarcaData.MEDIA_FILES if getattr(comarca, field)]],
    the list [imgs] of [main]. *)
Definition media_files (data : list ComarcaData) : list string :=
  List.flat_map
    (fun comarca =>
       List.flat_map
         (fun field =>
            match getattr comarca field with
            | Some p => if PyStr.truthy (Some p) then [p] else []
            | None => []
            end)
         MEDIA_FILES)
    data.

(** [comarca.title.split(":")[-1]], the name [main] gives to a category. *)
Definition comarca_title (page : WikipediaPage) : string :=
  PyStr.last (PyStr.split ":" (page_title page)).

(** How [main] ends once the records are assembled: [exit(-1)], or a package
    handed to [write_to_file]. *)
Inductive run_outcome :=
  | Exit (status : Z)
  | Packaged (pkg : Package).

(** [main] from the validation of the records to the package (the lines
    between the loop over the comarques and [pkg.write_to_file]);
    [template_files] and [style] are what [load_templates] and [load_style]
    find on disk. *)
Definition package_of_data (data : list ComarcaData)
    (template_files : list (string * string)) (style : string)
  : M run_outcome :=
  (valid <- run.validate_data data ;;
   if negb valid then ret (Exit (-1))
   else
     templates <- lift (load_templates template_files) ;;
     let model := run.create_model templates style in
     notes <- lift (run.get_notes data model) ;;
     let imgs := media_files data in
     ret (Packaged (create_deck notes imgs)))%py.

(** The loop of [main] over the categories kept: one record per category,
    assembled in the order of the listing (the progress bar only displays
    the name). *)
Definition assemble_records (lower : string -> string) (wiki : Wikipedia)
  : M (list ComarcaData) :=
  let comarques := run.get_comarques_categories lower wiki in
  mapM (fun comarca => run.get_comarca_data (comarca_title comarca)) comarques.

End packaging.

(** ** Vocabulary of the further properties *)

(** A world in which every page is answered and the parser, after a
    warning of its decoder, rejects the markup. *)
Definition rejecting : World :=
  {| net := fun _ rq => Ok {| status_code := 200; reason := "OK";
                              resp_url := req_url rq; content := "<![foo bar]>" |};
     json_decode := fun _ => Raise (Exn RequestException "Expecting value");
     html_parser := fun _ =>
       ([(WARNING, "Some characters could not be decoded, and were replaced with REPLACEMENT CHARACTER.")],
        Raise (Exn ParserRejectedMarkup "expected name token"));
     open_fault := fun _ => None;
     write_fault := fun _ _ => None;
     sent := [];
     log := [];
     files := ∅ |}.


(** A title that neither heuristic of the alternate client picks. *)
Definition unmatched (title : string) : Prop :=
  PyStr.contains "Mapa" title = false /\
  PyStr.contains "Escut" title = false /\
  PyStr.contains "Coat of arms" title = false.

(** The answer of the service that lists [images] for one page. *)
Definition images_response (page_id : string) (images : list ImageRef)
    (others : list (string * PageEntry)) : ApiResponse :=
  {| ar_query :=
       Some {| q_pages :=
                 Some ((page_id, {| pe_images := Some images;
                                    pe_imageinfo := None |}) :: others) |} |}.

(** The entry [{"title": t}] of an [images] list. *)
Definition image_ref (t : string) : ImageRef := {| ir_title := Some t |}.

(** A world that answers every request with the two images of Bages. *)
Definition bages_world : World :=
  {| net := fun _ rq => Ok {| status_code := 200; reason := "OK";
                              resp_url := req_url rq; content := "{}" |};
     json_decode := fun _ =>
       Ok (images_response "38279"
             [image_ref "Fitxer:Localitzacio del Bages a Catalunya.svg";
              image_ref "Fitxer:Montserrat.jpg"] []);
     html_parser := fun _ => ([], Ok (Tag "[document]" []));
     open_fault := fun _ => None;
     write_fault := fun _ _ => None;
     sent := [];
     log := [];
     files := ∅ |}.

(** Both media fields of a record are set. *)
Definition media_set (c : ComarcaData) : Prop :=
  is_Some (escut_url c) /\ is_Some (map_url c).

(** A record without a coat of arms that passes validation. *)
Definition bergueda : ComarcaData :=
  {| comarca := "Bergueda"; capital := Some "Berga";
     map_url := Some "imgs/Bergueda_map.svg"; escut_url := None |}.

(** The answer of the media repository with one page entry. *)
Definition imageinfo_response (page_id : string) (imageinfo : option (list ImageInfo))
    (others : list (string * PageEntry)) : ApiResponse :=
  {| ar_query :=
       Some {| q_pages :=
                 Some ((page_id, {| pe_images := None;
                                    pe_imageinfo := imageinfo |}) :: others) |} |}.

(** A world whose media repository does not know the file asked for. *)
Definition unknown_image_world : World :=
  {| net := fun _ rq => Ok {| status_code := 200; reason := "OK";
                              resp_url := req_url rq; content := "{}" |};
     json_decode := fun _ => Ok (imageinfo_response "-1" None []);
     html_parser := fun _ => ([], Ok (Tag "[document]" []));
     open_fault := fun _ => None;
     write_fault := fun _ _ => None;
     sent := [];
     log := [];
     files := ∅ |}.

(** A record of the alternate client with both images already known. *)
Definition bages_page : WikiApi.ComarcaPage :=
  {| WikiApi.cp_comarca := "Bages"; WikiApi.cp_capital := Some "Manresa";
     WikiApi.cp_map_url := Some "https://upload.wikimedia.org/map.svg";
     WikiApi.cp_escut_url := Some "https://upload.wikimedia.org/escut.svg" |}.


(** The request for the URL of an image, by the title of the image. *)
Definition resolve_request (image_title : string) : Request :=
  imageinfo_request (PyStr.replace "Fitxer:" "File:" image_title).

(* ===================================================================== *)
(** * Properties *)
(* ===================================================================== *)

(** ** Notes *)

Lemma get_note_fully_set model c cap m e :
  capital c = Some cap -> map_url c = Some m -> escut_url c = Some e ->
  run.get_note model c =
    Ok {| note_model := model;
          note_fields :=
            [ Some cap; Some EmptyString; Some EmptyString; Some (comarca c);
              Some EmptyString;
              Some ("<img src=" ++ run.dquote ++ path_name e ++ run.dquote ++ ">");
              Some EmptyString;
              Some ("<img src=" ++ run.dquote ++ path_name m ++ run.dquote ++ ">") ] |}.
Proof.
  intros Hc Hm He. unfold run.get_note. rewrite Hc, Hm, He. reflexivity.
Qed.

Lemma get_notes_cons model c data :
  run.get_notes (c :: data) model =
    rbind (run.get_note model c) (fun n =>
    rbind (run.get_notes data model) (fun ns => Ok (n :: ns))).
Proof. reflexivity. Qed.

(** [path_name] is the basename: behind a directory and a slash, a file name
    that holds no slash and is neither empty nor a single dot comes back as
    it is. *)
Lemma split_nonempty sep s : PyStr.split sep s <> [].
Proof.
  destruct s as [| c s]; simpl; [discriminate |].
  destruct (Ascii.eqb c sep); [discriminate |].
  destruct (PyStr.split sep s); discriminate.
Qed.

Lemma split_app sep a b :
  PyStr.split sep (a ++ String sep b) =
  (PyStr.split sep a ++ PyStr.split sep b)%list.
Proof.
  induction a as [| c a IH]; simpl.
  - rewrite Ascii.eqb_refl. reflexivity.
  - destruct (Ascii.eqb c sep); [rewrite IH; reflexivity |].
    rewrite IH. pose proof (split_nonempty sep a) as Hne.
    destruct (PyStr.split sep a); [congruence | reflexivity].
Qed.

Lemma split_without_sep sep s :
  PyStr.contains (String sep EmptyString) s = false -> PyStr.split sep s = [s].
Proof.
  induction s as [| c s IH]; [reflexivity |].
  simpl. destruct (ascii_dec sep c) as [<- | Hne].
  - destruct s; discriminate.
  - simpl. intros H. rewrite (IH H).
    destruct (Ascii.eqb c sep) eqn:E; [| reflexivity].
    apply Ascii.eqb_eq in E. congruence.
Qed.

Lemma path_name_basename dir base :
  PyStr.contains "/" base = false -> base <> EmptyString -> base <> "." ->
  path_name (dir ++ "/" ++ base) = base.
Proof.
  intros Hslash Hne Hdot. unfold path_name, path_parts, PyStr.last.
  change (dir ++ "/" ++ base) with (dir ++ String "/" base).
  rewrite split_app, (split_without_sep _ _ Hslash), List.filter_app. simpl.
  apply String.eqb_neq in Hne, Hdot. rewrite Hne, Hdot. simpl.
  apply last_last.
Qed.

(** C1. For a list of records that all have capital, map_url and escut_url
    set, [get_notes] returns one note per record, in order, and the 8 fields
    of the note of a record are: the capital, three placeholders around the
    comarca name, the image tag of the basename of escut_url, a placeholder,
    and the image tag of the basename of map_url.  The record of Bages gives
    exactly the fields listed in the specification. *)
Theorem get_notes_field_mapping (model : Model) :
  (forall data : list ComarcaData,
     Forall fully_set data ->
     exists notes,
       run.get_notes data model = Ok notes /\
       length notes = length data /\
       forall i c, data !! i = Some c ->
         exists cap m e,
           capital c = Some cap /\ map_url c = Some m /\ escut_url c = Some e /\
           notes !! i =
             Some {| note_model := model;
                     note_fields :=
                       [ Some cap; Some EmptyString; Some EmptyString;
                         Some (comarca c); Some EmptyString;
                         Some ("<img src=" ++ run.dquote ++ path_name e
                               ++ run.dquote ++ ">");
                         Some EmptyString;
                         Some ("<img src=" ++ run.dquote ++ path_name m
                               ++ run.dquote ++ ">") ] |}) /\
  run.get_notes [bages] model =
    Ok [ {| note_model := model;
            note_fields :=
              [ Some "Manresa"; Some EmptyString; Some EmptyString;
                Some "Bages"; Some EmptyString;
                Some ("<img src=" ++ run.dquote ++ "Bages_escut.svg"
                      ++ run.dquote ++ ">");
                Some EmptyString;
                Some ("<img src=" ++ run.dquote ++ "Bages_map.svg"
                      ++ run.dquote ++ ">") ] |} ].
Proof.
  split; [| reflexivity].
  induction 1 as [| c data Hc _ IH].
  - exists []. repeat split. intros i c Hi. destruct i; discriminate.
  - destruct IH as (notes & Hn & Hlen & Hfields).
    destruct Hc as ([cap Hcap] & [m Hm] & [e He]).
    eexists. rewrite get_notes_cons, (get_note_fully_set _ _ _ _ _ Hcap Hm He), Hn.
    simpl. split; [reflexivity |]. split; [simpl; congruence |].
    intros [| i] c' Hi; simpl in Hi.
    + injection Hi as <-. exists cap, m, e. repeat split; assumption.
    + apply Hfields, Hi.
Qed.

Lemma get_notes_field_mapping_witness :
  exists notes,
    run.get_notes [bages] (run.create_model [] "css") = Ok notes /\
    length notes = 1.
Proof.
  destruct (proj1 (get_notes_field_mapping (run.create_model [] "css")) [bages])
    as (notes & H & Hlen & _).
  - repeat constructor; eexists; reflexivity.
  - exists notes. split; assumption.
Defined.

(** C9. When some record has escut_url or map_url unset, [get_notes] raises
    a [TypeError] (from [Path(None)]) and builds no note list; the case is
    reachable, since [validate_data] accepts a list in which a record has no
    escut_url. *)
Theorem get_notes_unset_media_raises (model : Model) :
  (forall data : list ComarcaData,
     Exists (fun c => escut_url c = None \/ map_url c = None) data ->
     exists e, run.get_notes data model = Raise e /\ exn_cls e = TypeError) /\
  (exists data w,
     fst (run.validate_data data w) = Ok true /\
     Exists (fun c => escut_url c = None) data /\
     exists e, run.get_notes data model = Raise e).
Proof.
  split.
  - induction data as [| c data IH]; intros Hex.
    + inversion Hex.
    + rewrite get_notes_cons. unfold run.get_note.
      destruct (escut_url c) as [e |] eqn:He; simpl;
        [| eexists; split; reflexivity].
      destruct (map_url c) as [m |] eqn:Hm; simpl;
        [| eexists; split; reflexivity].
      apply Exists_cons in Hex as [[Hc | Hc] | Hex]; try congruence.
      destruct (IH Hex) as (e' & -> & Hcls). simpl. eauto.
  - exists [bages; anoia], offline. split; [reflexivity |]. split.
    + apply Exists_cons_tl, Exists_cons_hd. reflexivity.
    + eexists. reflexivity.
Qed.

Lemma get_notes_unset_media_raises_witness :
  exists e, run.get_notes [bages; anoia] (run.create_model [] "css") = Raise e
            /\ exn_cls e = TypeError.
Proof.
  apply (proj1 (get_notes_unset_media_raises (run.create_model [] "css"))).
  apply Exists_cons_tl, Exists_cons_hd. left. reflexivity.
Defined.

(** ** Validation *)

Lemma missing_nil data field :
  run.missing data field = [] <->
  Forall (fun c => PyStr.truthy (getattr c field) = true) data.
Proof.
  unfold run.missing. induction data as [| c data IH]; simpl.
  - split; [constructor | reflexivity].
  - destruct (PyStr.truthy (getattr c field)) eqn:Ht; simpl.
    + rewrite IH. split; [intros H; constructor; assumption
                         | intros H; inversion H; assumption].
    + split; [discriminate | intros H; inversion H; congruence].
Qed.

Lemma required_present_missing data :
  Forall required_present data <->
  run.missing data "capital" = [] /\ run.missing data "map_url" = [].
Proof.
  rewrite !missing_nil, !Forall_forall. unfold required_present.
  split.
  - intros H. split; intros c Hc; apply (H c Hc).
  - intros [H1 H2] c Hc. split; [apply (H1 c Hc) | apply (H2 c Hc)].
Qed.

(** The whole of [validate_data], by the first field that has a gap. *)
Lemma validate_data_cases data w :
  run.validate_data data w =
    match run.missing data "capital" with
    | _ :: _ =>
        (Ok false,
         with_log w (log w ++ [(ERROR, "Missing capital for comarques: "
                                       ++ PyStr.join "," (run.missing data "capital"))]))
    | [] =>
        match run.missing data "map_url" with
        | _ :: _ =>
            (Ok false,
             with_log w (log w ++ [(ERROR, "Missing map_url for comarques: "
                                           ++ PyStr.join "," (run.missing data "map_url"))]))
        | [] =>
            match run.missing data "escut_url" with
            | _ :: _ =>
                (Ok true,
                 with_log w (log w ++ [(WARNING, "Missing escut_url for comarques: "
                                                 ++ PyStr.join "," (run.missing data "escut_url"))]))
            | [] => (Ok true, w)
            end
        end
    end.
Proof.
  unfold run.validate_data, run.validate_loop, run.validate_field, bind.
  destruct (run.missing data "capital"); [| reflexivity].
  destruct (run.missing data "map_url"); [| reflexivity].
  destruct (run.missing data "escut_url"); reflexivity.
Qed.

(** C2. [validate_data] never raises and returns [True] exactly when every
    record has a truthy capital and a truthy map_url.  With those present, a
    gap in escut_url adds one warning that lists the comarques concerned and
    the result is still [True].  The fields are examined in the order
    capital, map_url, escut_url and the function returns [False] at the first
    required field with a gap: when a capital is missing, the only record
    logged is the error for capital, whatever map_url holds. *)
Theorem validate_data_spec (data : list ComarcaData) (w : World) :
  (fst (run.validate_data data w) = Ok true <-> Forall required_present data) /\
  (fst (run.validate_data data w) = Ok false <-> ~ Forall required_present data) /\
  (Forall required_present data -> run.missing data "escut_url" <> [] ->
   run.validate_data data w =
     (Ok true,
      with_log w (log w ++ [(WARNING, "Missing escut_url for comarques: "
                                      ++ PyStr.join "," (run.missing data "escut_url"))]))) /\
  (Forall required_present data -> run.missing data "escut_url" = [] ->
   run.validate_data data w = (Ok true, w)) /\
  (run.missing data "capital" <> [] ->
   run.validate_data data w =
     (Ok false,
      with_log w (log w ++ [(ERROR, "Missing capital for comarques: "
                                    ++ PyStr.join "," (run.missing data "capital"))]))) /\
  (run.missing data "capital" = [] -> run.missing data "map_url" <> [] ->
   run.validate_data data w =
     (Ok false,
      with_log w (log w ++ [(ERROR, "Missing map_url for comarques: "
                                    ++ PyStr.join "," (run.missing data "map_url"))]))).
Proof.
  rewrite required_present_missing, validate_data_cases.
  destruct (run.missing data "capital") as [| c1 l1];
    destruct (run.missing data "map_url") as [| c2 l2];
    destruct (run.missing data "escut_url") as [| c3 l3]; simpl;
    repeat split; try congruence; try tauto;
    try (intros [? ?]; congruence); try (intros ? [? ?]; congruence);
    try (intros; exfalso; tauto).
Qed.

Lemma validate_data_spec_witness :
  run.validate_data [bages; moianes; garraf] offline =
    (Ok false,
     with_log offline [(ERROR, "Missing capital for comarques: Garraf")]) /\
  run.validate_data [bages; anoia] offline =
    (Ok true,
     with_log offline [(WARNING, "Missing escut_url for comarques: Anoia")]).
Proof.
  split.
  - apply (proj1 (proj2 (proj2 (proj2 (proj2
             (validate_data_spec [bages; moianes; garraf] offline)))))).
    vm_compute. discriminate.
  - apply (proj1 (proj2 (proj2 (validate_data_spec [bages; anoia] offline)))).
    + repeat constructor.
    + vm_compute. discriminate.
Defined.

(** ** The category filter *)

Section CategoryFilter.

Variable lower : string -> string.

Lemma is_comarca_kept page :
  (page_ns page =? Namespace_CATEGORY)%Z && run.is_comarca lower page = true
  <-> kept lower page.
Proof.
  unfold kept, title_excluded, has_comarques_parent, run.is_comarca.
  rewrite andb_true_iff, Z.eqb_eq.
  destruct (PyStr.contains "de catalunya" (lower (page_title page))).
  - split; [intros [_ H]; discriminate | intros (_ & H & _); tauto].
  - rewrite existsb_exists. split.
    + intros [Hns (c & Hin & Heq)]. split; [assumption |].
      split; [discriminate |]. exists c. split; [assumption |].
      apply String.eqb_eq in Heq. congruence.
    + intros (Hns & _ & c & Hin & Heq). split; [assumption |].
      exists c. split; [assumption |]. apply String.eqb_eq. congruence.
Qed.

Lemma filter_sublist {A} (f : A -> bool) (l : list A) :
  sublist (List.filter f l) l.
Proof.
  induction l as [| x l IH]; simpl; [constructor |].
  destruct (f x); [apply sublist_skip | apply sublist_cons]; assumption.
Qed.

Lemma alternate_is_comarca page :
  WikiApi.is_comarca lower page = run.is_comarca lower page.
Proof. reflexivity. Qed.

(** C3. Of the category members the service returns, [list comarques]
    keeps exactly those that are in the category namespace, whose title
    does not contain "de catalunya" case-insensitively, and that have a
    parent category whose title is case-insensitively
    "categoria:comarques de catalunya"; the members kept stay in the order
    of the listing.  The alternate client keeps the same members and
    returns, for each, the record named after the part of its title that
    follows the last colon. *)
Theorem list_comarques_keeps_exactly (wiki : Wikipedia) :
  let members := wiki "Category:Comarques de Catalunya" in
  (forall page,
     In page (run.get_comarques_categories lower wiki) <->
     In page members /\ kept lower page) /\
  sublist (run.get_comarques_categories lower wiki) members /\
  (forall page, In page members ->
     page_ns page <> Namespace_CATEGORY \/ title_excluded lower page
     \/ ~ has_comarques_parent lower page ->
     ~ In page (run.get_comarques_categories lower wiki)) /\
  WikiApi.get_comarques lower wiki =
    List.map (fun page =>
                WikiApi.mkComarcaPage
                  (PyStr.last (PyStr.split ":" (page_title page))))
             (run.get_comarques_categories lower wiki).
Proof.
  intros members. unfold run.get_comarques_categories. fold members.
  assert (Hiff : forall page,
    In page (List.filter (fun page => (page_ns page =? Namespace_CATEGORY)%Z
                                      && run.is_comarca lower page) members)
    <-> In page members /\ kept lower page).
  { intros page. rewrite filter_In, is_comarca_kept. reflexivity. }
  split; [exact Hiff |]. split; [apply filter_sublist |]. split.
  - intros page Hin Hfail Hres. apply Hiff in Hres as [_ (Hns & Hex & Hpar)].
    destruct Hfail as [H | [H | H]]; tauto.
  - reflexivity.
Qed.

End CategoryFilter.

Lemma list_comarques_keeps_exactly_witness :
  map page_title (run.get_comarques_categories PyStr.lower sample_wiki)
    = ["Categoria:Bages"; "CATEGORIA:Anoia"] /\
  map WikiApi.cp_comarca (WikiApi.get_comarques PyStr.lower sample_wiki)
    = ["Bages"; "Anoia"] /\
  ~ In {| page_title := "Categoria:Vegueries"; page_ns := 14;
          page_categories := ["Categoria:Geografia de Catalunya"] |}
       (run.get_comarques_categories PyStr.lower sample_wiki).
Proof.
  split; [reflexivity |]. split; [reflexivity |].
  apply (proj1 (proj2 (proj2
           (list_comarques_keeps_exactly PyStr.lower sample_wiki)))).
  - simpl. tauto.
  - right. right. intros (c & [<- | []] & Hc). vm_compute in Hc. discriminate.
Defined.

(** ** The capital row *)

Lemma find_first {A} (f : A -> bool) (l : list A) (x : A) :
  List.find f l = Some x <->
  exists l1 l2, l = (l1 ++ x :: l2)%list /\ f x = true /\
                Forall (fun y => f y = false) l1.
Proof.
  induction l as [| y l IH]; simpl.
  - split; [discriminate |].
    intros (l1 & l2 & Heq & _). destruct l1; discriminate.
  - destruct (f y) eqn:Hy.
    + split.
      * intros [= <-]. exists [], l. repeat split; [assumption | constructor].
      * intros (l1 & l2 & Heq & Hx & Hall). destruct l1 as [| z l1].
        -- injection Heq as -> _. reflexivity.
        -- injection Heq as -> _. inversion Hall; congruence.
    + rewrite IH. split.
      * intros (l1 & l2 & -> & Hx & Hall). exists (y :: l1), l2.
        repeat split; [assumption | constructor; assumption].
      * intros (l1 & l2 & Heq & Hx & Hall). destruct l1 as [| z l1].
        -- injection Heq as -> _. congruence.
        -- injection Heq as -> ->. exists l1, l2. inversion Hall.
           repeat split; assumption.
Qed.

Lemma find_nothing {A} (f : A -> bool) (l : list A) :
  List.find f l = None <-> forall x, In x l -> f x = false.
Proof.
  induction l as [| y l IH]; simpl.
  - split; [intros _ x [] | reflexivity].
  - destruct (f y) eqn:Hy.
    + split; [discriminate |]. intros H. specialize (H y (or_introl eq_refl)).
      congruence.
    + rewrite IH. split.
      * intros H x [<- | Hx]; [assumption | apply H, Hx].
      * intros H x Hx. apply H. right. assumption.
Qed.

Lemma tag_matches_header n :
  tag_matches "th" (Some "Capital") n = true <-> is_capital_header n.
Proof.
  unfold tag_matches, is_capital_header. rewrite andb_true_iff.
  destruct (tag_string n) as [s |].
  - rewrite String.eqb_eq. split; intros [H1 H2]; split; congruence.
  - split; intros [H1 H2]; discriminate.
Qed.

Lemma tag_matches_link n : tag_matches "a" None n = true <-> is_link n.
Proof. unfold tag_matches, is_link. rewrite andb_true_r. reflexivity. Qed.

Section Find.

Variables (name : string) (s : option string) (P : node -> Prop).
Hypothesis matches_P : forall n, tag_matches name s n = true <-> P n.

Lemma soup_find_first root parent elem :
  soup_find root name s = Some (parent, elem) <-> first_below P root parent elem.
Proof.
  unfold soup_find, first_below. rewrite find_first.
  split; intros (l1 & l2 & Heq & Hm & Hall); exists l1, l2;
    (split; [assumption |]); simpl in *;
    (split; [apply matches_P; assumption |]);
    eapply Forall_impl; try eassumption; simpl; intros [p c] Hc; simpl in *.
  - rewrite <- matches_P. congruence.
  - rewrite <- matches_P in Hc. destruct (tag_matches name s c); tauto.
Qed.

Lemma soup_find_none root :
  soup_find root name s = None <-> none_below P root.
Proof.
  unfold soup_find, none_below. rewrite find_nothing. split.
  - intros H p c Hin. rewrite <- matches_P. specialize (H _ Hin). simpl in H.
    congruence.
  - intros H [p c] Hin. specialize (H _ _ Hin). rewrite <- matches_P in H.
    simpl. destruct (tag_matches name s c); tauto.
Qed.

End Find.

Lemma node_ind' (P : node -> Prop) :
  (forall k s, P (Str k s)) ->
  (forall nm cs, Forall P cs -> P (Tag nm cs)) ->
  forall n, P n.
Proof.
  intros HS HT.
  refine (fix IH (n : node) : P n :=
            match n with
            | Str k s => HS k s
            | Tag nm cs =>
                HT nm cs
                   ((fix go (l : list node) : Forall P l :=
                       match l with
                       | [] => List.Forall_nil _
                       | c :: r => List.Forall_cons _ _ _ (IH c) (go r)
                       end) cs)
            end).
Qed.

Lemma descendants_Tag nm cs :
  descendants (Tag nm cs) =
  flat_map (fun c => (Tag nm cs, c) :: descendants c) cs.
Proof.
  simpl. generalize (Tag nm cs) as n. intros n.
  induction cs as [| c r IH]; simpl; [reflexivity |]. rewrite IH. reflexivity.
Qed.

(** The parent recorded with a descendant is a tag that has it among its
    contents: the row contains the header cell. *)
Lemma descendants_parent root parent elem :
  In (parent, elem) (descendants root) ->
  exists nm cs, parent = Tag nm cs /\ In elem cs.
Proof.
  revert parent elem.
  induction root as [k s | nm cs IH] using node_ind'; intros parent elem;
    [simpl; intros [] |].
  rewrite descendants_Tag, in_flat_map. intros (c & Hc & Hin).
  destruct Hin as [Heq | Hin].
  - injection Heq as <- <-. eauto.
  - rewrite List.Forall_forall in IH. eapply IH; eassumption.
Qed.

(** C5, as the code has it.  Let the parser accept the page and give the
    tree [soup].  The header cell is the first [th] tag, in document order,
    whose [.string] is exactly "Capital", and the row is its parent.  If the
    first [a] tag below the row is [link], the capital returned is the text
    of [link]; if no [a] tag lies below the row, it is the string
    "Capital not found in the expected format"; if no such [th] tag exists,
    it is "Capital row not found".  One request is made, for the page, and
    what the parser logs is logged. *)
Theorem get_capital_spec (w : World) (page_url : string) (response : Response)
    (records : list (level * string)) (soup : node) :
  let rq := {| req_url := page_url; req_params := []; req_headers := [] |} in
  let w' := with_log (with_sent w (sent w ++ [rq])) (log w ++ records) in
  net w (sent w) rq = Ok response ->
  html_parser w (content response) = (records, Ok soup) ->
  (forall row th parent link,
     first_below is_capital_header soup row th ->
     first_below is_link row parent link ->
     run.get_comarca_capital_from_html page_url w = (Ok (get_text link), w')) /\
  (forall row th,
     first_below is_capital_header soup row th ->
     none_below is_link row ->
     run.get_comarca_capital_from_html page_url w
       = (Ok "Capital not found in the expected format", w')) /\
  (none_below is_capital_header soup ->
   run.get_comarca_capital_from_html page_url w = (Ok "Capital row not found", w')).
Proof.
  intros rq w' Hnet Hparse.
  unfold run.get_comarca_capital_from_html, bind, requests_get, BeautifulSoup.
  fold rq. rewrite Hnet.
  change (html_parser (with_sent w (sent w ++ [rq]))) with (html_parser w).
  rewrite Hparse. cbv iota beta. fold w'. repeat split.
  - intros row th parent link Hth Hlink.
    apply (soup_find_first _ _ _ tag_matches_header) in Hth.
    apply (soup_find_first _ _ _ tag_matches_link) in Hlink.
    rewrite Hth, Hlink. reflexivity.
  - intros row th Hth Hnone.
    apply (soup_find_first _ _ _ tag_matches_header) in Hth.
    apply (soup_find_none _ _ _ tag_matches_link) in Hnone.
    rewrite Hth, Hnone. reflexivity.
  - intros Hnone.
    apply (soup_find_none _ _ _ tag_matches_header) in Hnone.
    rewrite Hnone. reflexivity.
Qed.

Lemma get_capital_spec_witness :
  let url := "https://ca.wikipedia.org/wiki/Bages" in
  let rq := {| req_url := url; req_params := []; req_headers := [] |} in
  run.get_comarca_capital_from_html url (serving page_with_capital)
    = (Ok "Manresa", with_log (with_sent (serving page_with_capital) [rq]) []) /\
  run.get_comarca_capital_from_html url (serving page_without_link)
    = (Ok "Capital not found in the expected format",
       with_log (with_sent (serving page_without_link) [rq]) []) /\
  run.get_comarca_capital_from_html url (serving page_without_row)
    = (Ok "Capital row not found",
       with_log (with_sent (serving page_without_row) [rq]) []).
Proof.
  intros url rq. split; [| split].
  - apply (proj1 (get_capital_spec (serving page_with_capital) url _ [] _
                    eq_refl eq_refl)
             (Tag "tr" [ Tag "th" [text "Capital"];
                         Tag "td" [ text " ";
                                    Tag "a" [Tag "b" [text "Man"]; text "resa"];
                                    Tag "a" [text "Cardona"] ] ])
             (Tag "th" [text "Capital"])
             (Tag "td" [ text " "; Tag "a" [Tag "b" [text "Man"]; text "resa"];
                         Tag "a" [text "Cardona"] ])
             (Tag "a" [Tag "b" [text "Man"]; text "resa"])).
    + apply (soup_find_first _ _ _ tag_matches_header). reflexivity.
    + apply (soup_find_first _ _ _ tag_matches_link). reflexivity.
  - apply (proj1 (proj2 (get_capital_spec (serving page_without_link) url _ [] _
                           eq_refl eq_refl))
             (Tag "tr" [ Tag "th" [text "Capital"]; Tag "td" [text "Manresa"] ])
             (Tag "th" [text "Capital"])).
    + apply (soup_find_first _ _ _ tag_matches_header). reflexivity.
    + apply (soup_find_none _ _ _ tag_matches_link). reflexivity.
  - apply (proj2 (proj2 (get_capital_spec (serving page_without_row) url _ [] _
                           eq_refl eq_refl))).
    apply (soup_find_none _ _ _ tag_matches_header). reflexivity.
Defined.

(** The claim C5 fails where it speaks of the exact text of the header
    cell.  On the first page a [th] tag has the exact text "Capital" (next
    to a line break) and its row has a link, yet the answer is
    "Capital row not found"; on the second no [th] tag has that text (the
    word stands in a comment), yet the answer is the text of the link and
    not "Capital row not found". *)
Lemma get_capital_exact_text_differs :
  let url := "https://ca.wikipedia.org/wiki/Bages" in
  (first_below exact_text_header page_header_with_break
     (Tag "tr" [ Tag "th" [text "Capital"; Tag "br" []];
                 Tag "td" [Tag "a" [text "Manresa"]] ])
     (Tag "th" [text "Capital"; Tag "br" []]) /\
   first_below is_link
     (Tag "tr" [ Tag "th" [text "Capital"; Tag "br" []];
                 Tag "td" [Tag "a" [text "Manresa"]] ])
     (Tag "td" [Tag "a" [text "Manresa"]])
     (Tag "a" [text "Manresa"]) /\
   get_text (Tag "a" [text "Manresa"]) = "Manresa" /\
   fst (run.get_comarca_capital_from_html url (serving page_header_with_break))
     = Ok "Capital row not found") /\
  (none_below exact_text_header page_comment_header /\
   fst (run.get_comarca_capital_from_html url (serving page_comment_header))
     = Ok "Comentari").
Proof.
  intros url. split; [split; [| split; [| split]] | split].
  - exists [ (page_header_with_break,
              Tag "table"
                [ Tag "tr" [ Tag "th" [text "Capital"; Tag "br" []];
                             Tag "td" [Tag "a" [text "Manresa"]] ] ]);
             (Tag "table"
                [ Tag "tr" [ Tag "th" [text "Capital"; Tag "br" []];
                             Tag "td" [Tag "a" [text "Manresa"]] ] ],
              Tag "tr" [ Tag "th" [text "Capital"; Tag "br" []];
                         Tag "td" [Tag "a" [text "Manresa"]] ]) ].
    eexists. split; [reflexivity |]. split; [split; reflexivity |].
    repeat constructor; intros [H _]; discriminate H.
  - apply (soup_find_first _ _ _ tag_matches_link). reflexivity.
  - reflexivity.
  - reflexivity.
  - intros parent elem Hin [Htag Htext].
    simpl in Hin.
    repeat (destruct Hin as [Heq | Hin];
            [injection Heq as <- <-; discriminate |]).
    destruct Hin.
  - reflexivity.
Qed.

(** ** Downloads *)

Lemma raise_for_status_ok r w :
  status_ok r -> raise_for_status r w = (Ok tt, w).
Proof.
  unfold status_ok, raise_for_status. intros H.
  destruct (400 <=? status_code r)%Z eqn:H4; simpl.
  - destruct (status_code r <? 500)%Z eqn:H5; [lia |].
    destruct (500 <=? status_code r)%Z eqn:H6; simpl; [| reflexivity].
    destruct (status_code r <? 600)%Z eqn:H7; [lia | reflexivity].
  - destruct (500 <=? status_code r)%Z eqn:H6; simpl; [lia | reflexivity].
Qed.

Lemma raise_for_status_error r w :
  ~ status_ok r ->
  exists e, exn_cls e = HTTPError /\ raise_for_status r w = (Raise e, w).
Proof.
  unfold status_ok, raise_for_status. intros H.
  destruct (400 <=? status_code r)%Z eqn:H4; simpl; [| lia].
  destruct (status_code r <? 500)%Z eqn:H5; [eexists; split; [| reflexivity]; reflexivity |].
  destruct (500 <=? status_code r)%Z eqn:H6; simpl; [| lia].
  destruct (status_code r <? 600)%Z eqn:H7;
    [eexists; split; [| reflexivity]; reflexivity | lia].
Qed.

Lemma status_ok_dec r : status_ok r \/ ~ status_ok r.
Proof. unfold status_ok. lia. Qed.

(** [download_svg] returns [None] in every world. *)
Lemma download_svg_returns url filename w :
  fst (run.download_svg url filename w) = Ok tt.
Proof.
  unfold run.download_svg, try_except, bind, logging_error, logging.
  destruct url as [u |]; [| reflexivity].
  unfold requests_get. destruct (net w (sent w) _) as [r | e]; [| reflexivity].
  destruct (raise_for_status r _) as [[[] | e] w1]; [| reflexivity].
  unfold write_binary. destruct (open_fault w1 filename); [reflexivity |].
  destruct (write_fault w1 filename (content r)) as [[part e] |]; reflexivity.
Qed.

(** C6, as the code has it.  [download_svg] never raises: whatever fails is
    caught and logged as an error that names the URL and the text of the
    exception.  When the request fails, when the status is not a success,
    or when the destination cannot be opened, the files are left as they
    were, so that a destination that was absent stays absent.  A failure
    while the body is written comes after the destination has been created
    or truncated: the part written so far stays in the file.  On success
    the destination holds the body and nothing is logged. *)
Theorem download_svg_outcomes (url : option string) (filename : string) (w : World) :
  let out := run.download_svg url filename w in
  fst out = Ok tt /\
  (url = None ->
   snd out = with_log w (log w ++ [download_failure url run.missing_schema])) /\
  (forall u, url = Some u ->
     let w1 := with_sent w (sent w ++ [download_request u]) in
     (forall e, net w (sent w) (download_request u) = Raise e ->
        snd out = with_log w1 (log w ++ [download_failure url e])) /\
     (forall r, net w (sent w) (download_request u) = Ok r ->
        (~ status_ok r ->
         exists e, exn_cls e = HTTPError /\
                   snd out = with_log w1 (log w ++ [download_failure url e])) /\
        (status_ok r ->
         (forall e, open_fault w filename = Some e ->
            snd out = with_log w1 (log w ++ [download_failure url e])) /\
         (open_fault w filename = None ->
            (forall part e, write_fault w filename (content r) = Some (part, e) ->
               snd out =
                 with_log (with_files w1 (<[filename := part]> (files w)))
                          (log w ++ [download_failure url e])) /\
            (write_fault w filename (content r) = None ->
               snd out = with_files w1 (<[filename := content r]> (files w))))))).
Proof.
  intros out. split; [apply download_svg_returns |].
  subst out. unfold run.download_svg, try_except, bind, logging_error, logging.
  split.
  - intros ->. reflexivity.
  - intros u ->. unfold requests_get. fold (download_request u).
    set (w1 := with_sent w (sent w ++ [download_request u])). split.
    + intros e ->. reflexivity.
    + intros r ->. split.
      * intros Hst. destruct (raise_for_status_error r w1 Hst) as (e & Hcls & ->).
        exists e. split; [assumption | reflexivity].
      * intros Hst. rewrite (raise_for_status_ok r w1 Hst). unfold write_binary.
        change (open_fault w1) with (open_fault w).
        change (write_fault w1) with (write_fault w). split.
        -- intros e ->. reflexivity.
        -- intros ->. split.
           ++ intros part e ->. reflexivity.
           ++ intros ->. reflexivity.
Qed.

Lemma download_svg_outcomes_witness :
  let url := "https://upload.wikimedia.org/Bages.svg" in
  let out := run.download_svg (Some url) "imgs/Bages_map.svg" offline in
  fst out = Ok tt /\
  log (snd out) =
    [(ERROR, "Failed to download https://upload.wikimedia.org/Bages.svg: Network is unreachable")] /\
  files (snd out) !! "imgs/Bages_map.svg" = None.
Proof.
  intros url out.
  pose proof (download_svg_outcomes (Some url) "imgs/Bages_map.svg" offline) as H.
  destruct H as (Hret & _ & H). fold out in Hret.
  destruct (H url eq_refl) as (Hnet & _).
  specialize (Hnet _ eq_refl). fold out in Hnet.
  split; [exact Hret |]. rewrite Hnet. split; reflexivity.
Defined.

(** The claim C6 fails where it promises that a failed download writes no
    file: with the disk filling up while the body is written, the download
    is logged as failed, and the destination, absent before, holds the first
    bytes of the image. *)
Lemma download_svg_partial_file :
  let url := "https://upload.wikimedia.org/Bages.svg" in
  let out := run.download_svg (Some url) "imgs/Bages_map.svg" disk_full in
  files disk_full !! "imgs/Bages_map.svg" = None /\
  fst out = Ok tt /\
  log (snd out) =
    [(ERROR, "Failed to download https://upload.wikimedia.org/Bages.svg: [Errno 28] No space left on device")] /\
  files (snd out) !! "imgs/Bages_map.svg" = Some "<svg".
Proof.
  intros url out. split; [reflexivity |]. split; [reflexivity |].
  split; [reflexivity |]. subst out. vm_compute. reflexivity.
Qed.

(** ** Image titles *)

(** C7. When the answer has a page entry without the [images] member, the
    alternate client returns the empty list and logs a warning that names
    the page; [get_image_titles] of run.py subscripts the missing member and
    raises [KeyError('images')], without logging anything. *)
Theorem get_image_titles_missing_images
    (w : World) (page_title : string) (r : Response)
    (page_id : string) (entry : PageEntry) (others : list (string * PageEntry)) :
  net w (sent w) (images_request page_title) = Ok r ->
  json_decode w (content r) =
    Ok {| ar_query := Some {| q_pages := Some ((page_id, entry) :: others) |} |} ->
  pe_images entry = None ->
  let w1 := with_sent w (sent w ++ [images_request page_title]) in
  run.get_image_titles page_title w = (Raise (key_error "images"), w1) /\
  WikiApi.get_image_titles page_title w =
    (Ok [], with_log w1 (log w ++ [(WARNING, "No images found for " ++ page_title)])).
Proof.
  intros Hnet Hjson Himages w1. split.
  - unfold run.get_image_titles, bind, requests_get, json, lift.
    fold (images_request page_title). rewrite Hnet. fold w1.
    change (json_decode w1) with (json_decode w). rewrite Hjson. simpl.
    unfold run.dict_get. simpl. rewrite String.eqb_refl, Himages. reflexivity.
  - unfold WikiApi.get_image_titles, WikiApi.catch_http_errors, try_except,
      bind, requests_get, json, lift, WikiApi.wikipedia_api_url.
    fold (images_request page_title). rewrite Hnet. fold w1.
    change (json_decode w1) with (json_decode w). rewrite Hjson. simpl.
    unfold run.dict_get. simpl. rewrite String.eqb_refl, Himages. reflexivity.
Qed.

Lemma get_image_titles_missing_images_witness :
  let w1 := with_sent no_images_world [images_request "Bages"] in
  run.get_image_titles "Bages" no_images_world = (Raise (key_error "images"), w1) /\
  WikiApi.get_image_titles "Bages" no_images_world =
    (Ok [], with_log w1 [(WARNING, "No images found for Bages")]).
Proof.
  eapply (get_image_titles_missing_images no_images_world "Bages" _ "12345"
           {| pe_images := None; pe_imageinfo := None |} []);
    reflexivity.
Defined.

(** ** Image URLs *)

Lemma prefix_app (p s : string) : String.prefix p (p ++ s) = true.
Proof.
  induction p as [| c p IH]; simpl; [destruct s; reflexivity |].
  destruct (ascii_dec c c); [assumption | congruence].
Qed.

Lemma replace_from_skip old new (a s : string) :
  PyStr.replace_from old new (String.length a) (a ++ s) =
  PyStr.replace_from old new 0 s.
Proof. induction a as [| c a IH]; simpl; [reflexivity | assumption]. Qed.

(** The three equations of [str.replace] for a non-empty [old]: nothing to
    do on the empty string, an occurrence at the front is replaced and the
    scan resumes after it, any other character is kept. *)
Lemma replace_hit c old' new s :
  PyStr.replace (String c old') new (String c old' ++ s) =
  new ++ PyStr.replace (String c old') new s.
Proof.
  unfold PyStr.replace.
  change (String c old' ++ s) with (String c (old' ++ s)).
  unfold PyStr.replace_from at 1; fold PyStr.replace_from.
  change (String c (old' ++ s)) with (String c old' ++ s).
  rewrite prefix_app.
  change (String.length (String c old') - 1) with (String.length old' - 0).
  rewrite Nat.sub_0_r, replace_from_skip. reflexivity.
Qed.

Lemma replace_miss c old' new d s :
  String.prefix (String c old') (String d s) = false ->
  PyStr.replace (String c old') new (String d s) =
  String d (PyStr.replace (String c old') new s).
Proof.
  intros H. unfold PyStr.replace.
  unfold PyStr.replace_from at 1; fold PyStr.replace_from.
  rewrite H. reflexivity.
Qed.

Lemma replace_absent c old' new s :
  PyStr.contains (String c old') s = false ->
  PyStr.replace (String c old') new s = s.
Proof.
  induction s as [| d s IH]; [reflexivity |].
  intros H. change (PyStr.contains (String c old') (String d s))
    with (String.prefix (String c old') (String d s)
          || PyStr.contains (String c old') s) in H.
  apply orb_false_iff in H as [Hp Hc].
  rewrite (replace_miss _ _ _ _ _ Hp), (IH Hc). reflexivity.
Qed.

Lemma offline_ret {A} (a : A) : offline_step (ret a).
Proof. intros w. reflexivity. Qed.

Lemma offline_raise {A} (e : exn) : offline_step (@raise A e).
Proof. intros w. reflexivity. Qed.

Lemma offline_lift {A} (r : result A) : offline_step (lift r).
Proof. intros w. reflexivity. Qed.

Lemma offline_logging lv msg : offline_step (logging lv msg).
Proof. intros w. reflexivity. Qed.

Lemma offline_json r : offline_step (json r).
Proof. intros w. reflexivity. Qed.

Lemma offline_bind {A B} (m : M A) (k : A -> M B) :
  offline_step m -> (forall a, offline_step (k a)) -> offline_step (bind m k).
Proof.
  intros Hm Hk w. unfold bind. specialize (Hm w).
  destruct (m w) as [[a | e] w']; simpl in *; [| assumption].
  rewrite Hk. assumption.
Qed.

Lemma offline_try_except {A} (m : M A) catches handler :
  offline_step m -> (forall e, offline_step (handler e)) ->
  offline_step (try_except m catches handler).
Proof.
  intros Hm Hh w. unfold try_except. specialize (Hm w).
  destruct (m w) as [[a | e] w']; simpl in *; [assumption |].
  destruct (catches e); simpl; [rewrite Hh |]; assumption.
Qed.

Ltac offline_steps :=
  repeat first
    [ apply offline_ret | apply offline_raise | apply offline_lift
    | apply offline_logging | apply offline_json
    | apply offline_bind; [| intros ?]
    | match goal with
      | |- offline_step (match ?x with _ => _ end) => destruct x
      end ].

(** A request followed by steps that make none leaves exactly that request
    behind, whether the steps return or raise. *)
Lemma sent_after_request {A} url params headers (k : Response -> M A) w :
  (forall r, offline_step (k r)) ->
  sent (snd (bind (requests_get url params headers) k w)) =
  (sent w ++ [{| req_url := url; req_params := params;
                 req_headers := headers |}])%list.
Proof.
  intros Hk. unfold bind, requests_get.
  destruct (net w (sent w) _) as [r | e]; [| reflexivity].
  rewrite Hk. reflexivity.
Qed.

Lemma run_get_image_info_sent title w :
  sent (snd (run.get_image_info title w)) =
  (sent w ++ [imageinfo_request (PyStr.replace "Fitxer:" "File:" title)])%list.
Proof.
  unfold run.get_image_info. rewrite sent_after_request; [reflexivity |].
  intros r. unfold logging_warning. offline_steps.
Qed.

Lemma alternate_get_image_info_sent title w :
  sent (snd (WikiApi.get_image_info title w)) =
  (sent w ++ [imageinfo_request (PyStr.replace "Fitxer:" "File:" title)])%list.
Proof.
  unfold WikiApi.get_image_info, WikiApi.catch_http_errors, try_except.
  match goal with
  | |- context [bind (requests_get ?u ?p ?h) ?k w] =>
      pose proof (sent_after_request u p h k w) as H;
      destruct (bind (requests_get u p h) k w) as [[a | e] w']
  end; simpl in *.
  - apply H. intros r. unfold WikiApi.print. offline_steps.
  - destruct (is_http_exc e); simpl; apply H; intros r; unfold WikiApi.print; offline_steps.
Qed.

(** C8, as the code has it.  Both clients make one request to the media
    repository, whose [titles] value is the image title with every
    occurrence of "Fitxer:", found from left to right, replaced by "File:":
    a title without "Fitxer:" is passed unchanged, a leading "Fitxer:" is
    rewritten and the rewriting goes on in what follows it, and a character
    that does not start an occurrence is kept.  "Fitxer:Bages Mapa.svg" is
    queried as "File:Bages Mapa.svg". *)
Theorem get_image_info_titles (w : World) (image_title : string) :
  let titles := PyStr.replace "Fitxer:" "File:" image_title in
  sent (snd (run.get_image_info image_title w))
    = (sent w ++ [imageinfo_request titles])%list /\
  sent (snd (WikiApi.get_image_info image_title w))
    = (sent w ++ [imageinfo_request titles])%list /\
  (PyStr.contains "Fitxer:" image_title = false -> titles = image_title) /\
  (forall rest, image_title = "Fitxer:" ++ rest ->
     titles = "File:" ++ PyStr.replace "Fitxer:" "File:" rest) /\
  (forall rest, image_title = "Fitxer:" ++ rest ->
     PyStr.contains "Fitxer:" rest = false -> titles = "File:" ++ rest) /\
  (forall c rest, image_title = String c rest ->
     PyStr.startswith "Fitxer:" image_title = false ->
     titles = String c (PyStr.replace "Fitxer:" "File:" rest)) /\
  PyStr.replace "Fitxer:" "File:" "Fitxer:Bages Mapa.svg" = "File:Bages Mapa.svg".
Proof.
  intros titles. subst titles.
  split; [apply run_get_image_info_sent |].
  split; [apply alternate_get_image_info_sent |].
  split; [apply replace_absent |].
  split; [intros rest ->; apply replace_hit |].
  split; [intros rest -> H; rewrite replace_hit, (replace_absent _ _ _ _ H);
          reflexivity |].
  split; [intros c rest -> H; apply replace_miss, H | reflexivity].
Qed.

Lemma get_image_info_titles_witness :
  PyStr.replace "Fitxer:" "File:" "Fitxer:Bages Mapa.svg" = "File:" ++ "Bages Mapa.svg" /\
  PyStr.replace "Fitxer:" "File:" "Bages Mapa.svg" = "Bages Mapa.svg".
Proof.
  split.
  - apply (proj1 (proj2 (proj2 (proj2 (proj2
             (get_image_info_titles offline "Fitxer:Bages Mapa.svg")))))
             "Bages Mapa.svg"); reflexivity.
  - apply (proj1 (proj2 (proj2 (get_image_info_titles offline "Bages Mapa.svg")))).
    reflexivity.
Defined.

(** The claim C8 fails where it limits the rewrite to a leading prefix: the
    title below does not start with "Fitxer:", so the rewrite of the leading
    prefix leaves it alone, yet both clients query the media repository for
    a different title. *)
Lemma get_image_info_rewrites_inner_occurrence :
  let image_title := "Escut Fitxer:Bages.svg" in
  rewrite_leading_prefix image_title = image_title /\
  sent (snd (run.get_image_info image_title offline))
    = [imageinfo_request "Escut File:Bages.svg"] /\
  sent (snd (WikiApi.get_image_info image_title offline))
    = [imageinfo_request "Escut File:Bages.svg"] /\
  imageinfo_request "Escut File:Bages.svg"
    <> imageinfo_request (rewrite_leading_prefix image_title).
Proof.
  intros image_title. repeat split; try reflexivity. discriminate.
Qed.

(** ** The alternate client's record *)

Lemma for_titles_frame image_titles c w :
  let out := WikiApi.for_titles image_titles c w in
  WikiApi.cp_comarca (snd (fst out)) = WikiApi.cp_comarca c /\
  WikiApi.cp_capital (snd (fst out)) = WikiApi.cp_capital c.
Proof.
  revert c w. induction image_titles as [| title rest IH]; intros c w; simpl.
  - split; reflexivity.
  - destruct (PyStr.contains "Mapa" title).
    + destruct (WikiApi.get_image_info title w) as [[v | e] w'];
        [apply (IH (WikiApi.set_map_url c v) w') | split; reflexivity].
    + destruct (PyStr.contains "Escut" title || PyStr.contains "Coat of arms" title).
      * destruct (WikiApi.get_image_info title w) as [[v | e] w'];
          [apply (IH (WikiApi.set_escut_url c v) w') | split; reflexivity].
      * apply IH.
Qed.

(** C10. Whatever the titles found for the record, and whether the call
    returns or raises, [get_images_for_comarca] leaves the comarca name and
    the capital of the record as they were: only map_url and escut_url can
    change. *)
Theorem get_images_for_comarca_frame (comarca : WikiApi.ComarcaPage) (w : World) :
  let out := WikiApi.get_images_for_comarca comarca w in
  let comarca' := snd (fst out) in
  WikiApi.cp_comarca comarca' = WikiApi.cp_comarca comarca /\
  WikiApi.cp_capital comarca' = WikiApi.cp_capital comarca.
Proof.
  unfold WikiApi.get_images_for_comarca, WikiApi.catch_http_errors_on.
  destruct (WikiApi.get_image_titles (WikiApi.cp_comarca comarca) w)
    as [[image_titles | e] w1].
  - pose proof (for_titles_frame image_titles comarca w1) as H.
    destruct (WikiApi.for_titles image_titles comarca w1) as [[[[] | e] c'] w2];
      simpl in *; [exact H |].
    destruct (is_http_exc e); exact H.
  - destruct (is_http_exc e); split; reflexivity.
Qed.

(** ** Assembling a record *)

Lemma download_svg_keeps_log url filename w entry :
  In entry (log w) -> In entry (log (snd (run.download_svg url filename w))).
Proof.
  intros Hin.
  unfold run.download_svg, try_except, bind, logging_error, logging.
  destruct url as [u |]; simpl; [| apply in_or_app; left; assumption].
  unfold requests_get.
  destruct (net w (sent w) _) as [r | e]; simpl;
    [| apply in_or_app; left; assumption].
  unfold raise_for_status, raise, ret.
  destruct ((400 <=? status_code r)%Z && (status_code r <? 500)%Z); simpl;
    [apply in_or_app; left; assumption |].
  destruct ((500 <=? status_code r)%Z && (status_code r <? 600)%Z); simpl;
    [apply in_or_app; left; assumption |].
  unfold write_binary. simpl.
  destruct (open_fault w filename); simpl; [apply in_or_app; left; assumption |].
  destruct (write_fault w filename (content r)) as [[part e] |]; simpl;
    [apply in_or_app; left; assumption | assumption].
Qed.

(** One turn of the loop over the two kinds of media: without a URL the
    record is returned as it is and a warning is logged; with one, the field
    is set to the local path whatever [download_svg] met. *)
Lemma store_media_spec comarca_name comarca_path data urls field w :
  exists w',
    run.store_media comarca_name comarca_path data urls field w =
      (Ok match urls with
          | [] => data
          | _ :: _ =>
              set_media data field
                        ("imgs/" ++ comarca_path ++ "_" ++ field ++ ".svg")
          end, w') /\
    (urls = [] ->
     In (WARNING, "No " ++ field ++ " found for " ++ comarca_name) (log w')) /\
    (forall entry, In entry (log w) -> In entry (log w')).
Proof.
  unfold run.store_media. destruct urls as [| u urls].
  - eexists. split; [reflexivity |]. simpl. split.
    + intros _. apply in_or_app. right. left. reflexivity.
    + intros entry Hin. apply in_or_app. left. assumption.
  - unfold bind, ret.
    pose proof (download_svg_returns u
                  ("imgs/" ++ comarca_path ++ "_" ++ field ++ ".svg") w) as Hret.
    pose proof (download_svg_keeps_log u
                  ("imgs/" ++ comarca_path ++ "_" ++ field ++ ".svg") w) as Hlog.
    destruct (run.download_svg u _ w) as [[[] | e] w']; simpl in *;
      [| discriminate].
    exists w'. split; [reflexivity |]. split; [discriminate | exact Hlog].
Qed.





(** In that world the download of the map fails and is logged; the record
    names a file that was never written. *)
Example get_comarca_data_failed_download :
  let out := run.get_comarca_data "Bages" unreachable_files in
  fst out = Ok {| comarca := "Bages"; capital := Some "Manresa";
                  map_url := Some "imgs/Bages_map.svg"; escut_url := None |} /\
  log (snd out) =
    [ (ERROR, "Failed to download https://upload.wikimedia.org/bages.svg: Network is unreachable");
      (WARNING, "No escut found for Bages") ] /\
  files (snd out) !! "imgs/Bages_map.svg" = None.
Proof. vm_compute. repeat split. Qed.

(** When [get_comarca_data] does not return a record, it raises what one of
    its lookups raised: the listing of the titles, the resolution of a
    candidate, or the fetch of the page of the comarca. *)
Lemma get_comarca_data_raises_from_lookup comarca_name w e w' :
  run.get_comarca_data comarca_name w = (Raise e, w') ->
  run.get_image_titles comarca_name w = (Raise e, w') \/
  exists images w1,
    run.get_image_titles comarca_name w = (Ok images, w1) /\
    (mapM run.get_image_info (map_candidates images) w1 = (Raise e, w') \/
     exists map_urls w2,
       mapM run.get_image_info (map_candidates images) w1 = (Ok map_urls, w2) /\
       (mapM run.get_image_info (escut_candidates images) w2 = (Raise e, w') \/
        exists escut_urls w3,
          mapM run.get_image_info (escut_candidates images) w2
            = (Ok escut_urls, w3) /\
          run.get_comarca_capital_from_html
            ("https://ca.wikipedia.org/wiki/"
             ++ PyStr.replace " " "_" comarca_name) w3 = (Raise e, w'))).
Proof.
  unfold run.get_comarca_data, bind.
  fold map_candidates escut_candidates.
  destruct (run.get_image_titles comarca_name w) as [[images | e1] w1];
    [| intros [= <- <-]; left; reflexivity].
  fold (map_candidates images). fold (escut_candidates images).
  intros H. right. exists images, w1. split; [reflexivity |].
  destruct (mapM run.get_image_info (map_candidates images) w1)
    as [[map_urls | e2] w2]; [| injection H as <- <-; left; reflexivity].
  right. exists map_urls, w2. split; [reflexivity |].
  destruct (mapM run.get_image_info (escut_candidates images) w2)
    as [[escut_urls | e3] w3]; [| injection H as <- <-; left; reflexivity].
  right. exists escut_urls, w3. split; [reflexivity |].
  destruct (run.get_comarca_capital_from_html _ w3) as [[cap | e4] w4];
    [| injection H as <- <-; reflexivity].
  exfalso.
  destruct (store_media_spec comarca_name (PyStr.replace " " "_" comarca_name)
              (mkComarcaData comarca_name (Some cap)) map_urls "map" w4)
    as (w5 & Hm & _). rewrite Hm in H.
  match type of H with
  | context [run.store_media _ _ ?d escut_urls "escut" w5] =>
      destruct (store_media_spec comarca_name
                  (PyStr.replace " " "_" comarca_name) d escut_urls "escut" w5)
        as (w6 & He & _); rewrite He in H
  end.
  discriminate H.
Qed.

(** The alternate [get_image_info] never hands back a URL: reading [.text]
    off the decoded answer raises [AttributeError], which the decorator does
    not catch; only a request failure, caught, makes the call return, with
    [None]. *)
Lemma alternate_get_image_info_no_url image_title w u :
  fst (WikiApi.get_image_info image_title w) <> Ok (Some u).
Proof.
  unfold WikiApi.get_image_info, WikiApi.catch_http_errors, try_except, bind,
    requests_get, json, lift, WikiApi.response_text.
  destruct (net w (sent w) _) as [r | e]; simpl.
  - destruct (json_decode w (content r)) as [response | e]; simpl;
      [discriminate |].
    destruct (is_http_exc e); simpl; discriminate.
  - destruct (is_http_exc e); simpl; discriminate.
Qed.

(* ===================================================================== *)
(** * Further properties of the code *)
(* ===================================================================== *)

(** ** Notes, validation and the package *)

Lemma get_note_ok_iff model c :
  (exists n, run.get_note model c = Ok n) <-> media_set c.
Proof.
  unfold run.get_note, media_set.
  destruct (escut_url c) as [e |], (map_url c) as [m |]; simpl; split.
  all: try (intros [n H]; discriminate H).
  all: try (intros [[x Hx] [y Hy]]; discriminate).
  - intros _. split; eexists; reflexivity.
  - intros _. eexists. reflexivity.
Qed.

Lemma get_note_fields model c n :
  run.get_note model c = Ok n ->
  note_model n = model /\ length (note_fields n) = 8 /\
  note_fields n !! 0 = Some (capital c) /\
  note_fields n !! 3 = Some (Some (comarca c)).
Proof.
  unfold run.get_note.
  destruct (escut_url c) as [e |]; simpl; [| discriminate].
  destruct (map_url c) as [m |]; simpl; [| discriminate].
  intros [= <-]. repeat split.
Qed.

Lemma get_notes_ok_iff model data :
  (exists notes, run.get_notes data model = Ok notes) <-> Forall media_set data.
Proof.
  induction data as [| c data IH].
  - split; [intros _; constructor | intros _; exists []; reflexivity].
  - rewrite get_notes_cons, Forall_cons, <- IH, <- (get_note_ok_iff model c).
    destruct (run.get_note model c) as [n | e]; simpl.
    + destruct (run.get_notes data model) as [ns | e]; simpl; split.
      * intros _. split; eexists; reflexivity.
      * intros _. eexists. reflexivity.
      * intros [x H]. discriminate H.
      * intros [_ [x H]]. discriminate H.
    + split; [intros [x H]; discriminate H | intros [[x H] _]; discriminate H].
Qed.

Lemma get_notes_ok_shape model data notes :
  run.get_notes data model = Ok notes ->
  length notes = length data /\
  forall i c, data !! i = Some c ->
    exists n, notes !! i = Some n /\
              note_model n = model /\
              length (note_fields n) = 8 /\
              note_fields n !! 0 = Some (capital c) /\
              note_fields n !! 3 = Some (Some (comarca c)).
Proof.
  revert notes. induction data as [| c data IH]; intros notes.
  - intros [= <-]. split; [reflexivity |]. intros i c Hi. destruct i; discriminate.
  - rewrite get_notes_cons.
    destruct (run.get_note model c) as [n | e] eqn:Hn; simpl; [| discriminate].
    destruct (run.get_notes data model) as [ns | e]; simpl; [| discriminate].
    intros [= <-]. destruct (IH ns eq_refl) as [Hlen Hfields].
    split; [simpl; congruence |].
    intros [| i] c' Hi; simpl in Hi.
    + injection Hi as <-. exists n. split; [reflexivity |].
      apply get_note_fields, Hn.
    + apply Hfields, Hi.
Qed.

(** X1. [get_notes] returns a list of notes exactly when every record has
    both escut_url and map_url set; the capital plays no part: it is copied
    into the first field as it is, [None] included.  The notes returned are
    one per record, in order, each with 8 fields and the model given. *)
Theorem get_notes_returns_iff (model : Model) (data : list ComarcaData) :
  ((exists notes, run.get_notes data model = Ok notes) <-> Forall media_set data) /\
  (forall notes, run.get_notes data model = Ok notes ->
     length notes = length data /\
     forall i c, data !! i = Some c ->
       exists n, notes !! i = Some n /\
                 note_model n = model /\
                 length (note_fields n) = 8 /\
                 note_fields n !! 0 = Some (capital c) /\
                 note_fields n !! 3 = Some (Some (comarca c))).
Proof.
  split; [apply get_notes_ok_iff | apply get_notes_ok_shape].
Qed.

Lemma get_notes_returns_iff_witness :
  exists notes,
    run.get_notes [bages; garraf] (run.create_model [] "css") = Ok notes.
Proof.
  apply (proj1 (get_notes_returns_iff (run.create_model [] "css") [bages; garraf])).
  repeat constructor; eexists; reflexivity.
Defined.

Lemma truthy_is_Some o : PyStr.truthy o = true -> is_Some o.
Proof. destruct o as [s |]; [eexists; reflexivity | discriminate]. Qed.

Lemma truthy_Some p : PyStr.truthy (Some p) = true <-> p <> EmptyString.
Proof. destruct p; simpl; split; congruence. Qed.

Lemma validate_data_true_iff data w :
  fst (run.validate_data data w) = Ok true <-> Forall required_present data.
Proof.
  rewrite required_present_missing, validate_data_cases.
  destruct (run.missing data "capital"), (run.missing data "map_url"),
    (run.missing data "escut_url"); simpl; split;
    try (intros [? ?]); try congruence; try tauto; intros; discriminate.
Qed.

Lemma validate_data_boolean data w :
  fst (run.validate_data data w) = Ok true \/
  fst (run.validate_data data w) = Ok false.
Proof.
  rewrite validate_data_cases.
  destruct (run.missing data "capital"), (run.missing data "map_url"),
    (run.missing data "escut_url"); simpl; tauto.
Qed.

Lemma get_notes_raises_TypeError model data e :
  run.get_notes data model = Raise e -> exn_cls e = TypeError.
Proof.
  induction data as [| c data IH]; [discriminate |].
  rewrite get_notes_cons. unfold run.get_note.
  destruct (escut_url c); simpl; [| intros [= <-]; reflexivity].
  destruct (map_url c); simpl; [| intros [= <-]; reflexivity].
  destruct (run.get_notes data model) as [ns | e']; simpl; [discriminate |].
  intros [= <-]. apply IH. reflexivity.
Qed.

(** With the required fields present, the notes hinge on escut_url. *)
Lemma get_notes_required_present model data :
  Forall required_present data ->
  ((exists notes, run.get_notes data model = Ok notes) <->
   Forall (fun c => is_Some (escut_url c)) data) /\
  (Exists (fun c => escut_url c = None) data ->
   exists e, run.get_notes data model = Raise e /\ exn_cls e = TypeError).
Proof.
  intros Hv.
  assert (Hiff : Forall media_set data <->
                 Forall (fun c => is_Some (escut_url c)) data).
  { rewrite !List.Forall_forall. rewrite List.Forall_forall in Hv. split.
    - intros H c Hc. apply (H c Hc).
    - intros H c Hc. split; [apply (H c Hc) |].
      apply truthy_is_Some, (Hv c Hc). }
  split.
  - rewrite get_notes_ok_iff. exact Hiff.
  - intros Hex.
    destruct (run.get_notes data model) as [notes | e] eqn:Hn.
    + exfalso.
      assert (Hall : Forall (fun c => is_Some (escut_url c)) data).
      { apply Hiff. apply (proj1 (get_notes_ok_iff model data)). eauto. }
      rewrite List.Forall_forall in Hall. apply List.Exists_exists in Hex.
      destruct Hex as (c & Hc & Hnone). destruct (Hall c Hc) as [x Hx]. congruence.
    + exists e. split; [reflexivity |]. eapply get_notes_raises_TypeError, Hn.
Qed.

(** X2. Validation does not make the notes safe.  On a list that
    [validate_data] accepts, [get_notes] returns notes exactly when every
    record has its escut_url set; otherwise it raises a [TypeError]: the
    optional field of the validator is required by the note builder. *)
Theorem get_notes_after_validation (model : Model) (data : list ComarcaData)
    (w : World) :
  fst (run.validate_data data w) = Ok true ->
  ((exists notes, run.get_notes data model = Ok notes) <->
   Forall (fun c => is_Some (escut_url c)) data) /\
  (Exists (fun c => escut_url c = None) data ->
   exists e, run.get_notes data model = Raise e /\ exn_cls e = TypeError).
Proof.
  intros Hv. apply get_notes_required_present.
  apply validate_data_true_iff in Hv. exact Hv.
Qed.

Lemma get_notes_after_validation_witness :
  exists e, run.get_notes [bages; bergueda] (run.create_model [] "css") = Raise e
            /\ exn_cls e = TypeError.
Proof.
  apply (proj2 (get_notes_after_validation (run.create_model [] "css")
                  [bages; bergueda] offline eq_refl)).
  apply Exists_cons_tl, Exists_cons_hd. reflexivity.
Defined.

Lemma in_media_files data p :
  In p (packaging.media_files data) <->
  exists c, In c data /\ p <> EmptyString /\
            (map_url c = Some p \/ escut_url c = Some p).
Proof.
  unfold packaging.media_files. rewrite in_flat_map.
  split; intros (c & Hc & H); exists c; (split; [assumption |]).
  - simpl in H. change (getattr c "map_url") with (map_url c) in H.
    change (getattr c "escut_url") with (escut_url c) in H.
    rewrite app_nil_r in H. apply in_app_or in H.
    destruct H as [H | H].
    + destruct (map_url c) as [[| a m] |]; simpl in H; try (destruct H; fail).
      destruct H as [<- | []]. split; [discriminate | left; reflexivity].
    + destruct (escut_url c) as [[| a e] |]; simpl in H; try (destruct H; fail).
      destruct H as [<- | []]. split; [discriminate | right; reflexivity].
  - destruct H as (Hne & H). destruct p as [| a p]; [congruence |].
    simpl. change (getattr c "map_url") with (map_url c).
    change (getattr c "escut_url") with (escut_url c).
    rewrite app_nil_r. apply in_or_app.
    destruct H as [-> | ->]; [left | right]; left; reflexivity.
Qed.

(** X3. The media list of [main] holds exactly the non-empty paths found in
    the map_url and escut_url of the records: unset fields and empty paths
    are skipped, nothing else is added. *)
Theorem media_files_spec (data : list ComarcaData) (p : string) :
  In p (packaging.media_files data) <->
  exists c, In c data /\ p <> EmptyString /\
            (map_url c = Some p \/ escut_url c = Some p).
Proof. apply in_media_files. Qed.

Lemma media_files_spec_witness :
  In "imgs/Anoia_map.svg" (packaging.media_files [bages; anoia]).
Proof.
  apply (proj2 (media_files_spec [bages; anoia] "imgs/Anoia_map.svg")).
  exists anoia. split; [right; left; reflexivity |].
  split; [discriminate | left; reflexivity].
Defined.

Lemma fold_add_note notes d :
  packaging.deck_notes (List.fold_left packaging.add_note notes d) =
  (packaging.deck_notes d ++ notes)%list /\
  packaging.deck_id (List.fold_left packaging.add_note notes d) = packaging.deck_id d /\
  packaging.deck_name (List.fold_left packaging.add_note notes d)
    = packaging.deck_name d.
Proof.
  revert d. induction notes as [| n notes IH]; intros d; simpl.
  - rewrite app_nil_r. repeat split.
  - destruct (IH (packaging.add_note d n)) as (H1 & H2 & H3).
    rewrite H1, H2, H3. simpl. rewrite <- app_assoc. repeat split.
Qed.

(** X4. The end of [main].  When a required field is missing the run exits
    with status -1 before the templates are looked at.  When validation
    passes and the templates load, the outcome depends on escut_url alone:
    if every record has it, the package holds the deck 1859898804 with one
    note per record, in order, and the media list of the records, which then
    contains every map path; if some record lacks it, the run dies of a
    [TypeError] and no package is made. *)
Theorem package_of_data_outcomes (data : list ComarcaData)
    (template_files : list (string * string)) (style : string) (w : World) :
  let out := fst (packaging.package_of_data data template_files style w) in
  (~ Forall required_present data -> out = Ok (packaging.Exit (-1))) /\
  (Forall required_present data ->
   forall templates, packaging.load_templates template_files = Ok templates ->
     (Forall (fun c => is_Some (escut_url c)) data ->
      exists notes,
        run.get_notes data (run.create_model templates style) = Ok notes /\
        length notes = length data /\
        out = Ok (packaging.Packaged
                    {| packaging.pkg_deck :=
                         {| packaging.deck_id := 1859898804;
                            packaging.deck_name := "Comarques Catalanes";
                            packaging.deck_notes := notes |};
                       packaging.pkg_media_files := packaging.media_files data |}) /\
        forall c m, In c data -> map_url c = Some m ->
                    In m (packaging.media_files data)) /\
     (Exists (fun c => escut_url c = None) data ->
      exists e, out = Raise e /\ exn_cls e = TypeError)).
Proof.
  intros out. subst out. unfold packaging.package_of_data, bind.
  pose proof (validate_data_true_iff data w) as Hv.
  pose proof (validate_data_boolean data w) as Hb.
  destruct (run.validate_data data w) as [[valid | e] w1]; simpl in *;
    [| destruct Hb; discriminate].
  split.
  - intros Hnot. destruct valid; [| reflexivity].
    exfalso. apply Hnot, Hv. reflexivity.
  - intros Hreq templates Ht.
    assert (valid = true) as -> by (apply Hv in Hreq; congruence).
    simpl. unfold lift. rewrite Ht.
    destruct (get_notes_required_present (run.create_model templates style)
                data Hreq) as [Hiff Hraise].
    split.
    + intros Hall. apply Hiff in Hall. destruct Hall as [notes Hnotes].
      exists notes. split; [assumption |].
      split; [apply (get_notes_ok_shape _ _ notes Hnotes) |].
      rewrite Hnotes. simpl. split.
      * unfold packaging.create_deck. repeat f_equal.
        destruct (fold_add_note notes
                    {| packaging.deck_id := 1859898804;
                       packaging.deck_name := "Comarques Catalanes";
                       packaging.deck_notes := [] |}) as (H1 & H2 & H3).
        destruct (fold_left packaging.add_note notes _) as [i nm ns].
        simpl in *. congruence.
      * intros c m Hc Hm. apply in_media_files. exists c.
        split; [assumption |]. split; [| left; assumption].
        rewrite List.Forall_forall in Hreq. destruct (Hreq c Hc) as [_ Htruthy].
        rewrite Hm in Htruthy. apply truthy_Some, Htruthy.
    + intros Hex. destruct (Hraise Hex) as (e & -> & Hcls).
      exists e. split; [reflexivity | assumption].
Qed.

Lemma package_of_data_outcomes_witness :
  exists e,
    fst (packaging.package_of_data [bages; bergueda] [] "css" offline) = Raise e /\
    exn_cls e = TypeError.
Proof.
  apply (proj2 (proj2 (package_of_data_outcomes [bages; bergueda] [] "css" offline)
                  ltac:(repeat constructor) [] eq_refl)).
  apply Exists_cons_tl, Exists_cons_hd. reflexivity.
Defined.

(** ** Templates *)

Lemma prefix_app_long (p a b : string) :
  String.length p <= String.length a ->
  String.prefix p (a ++ b) = String.prefix p a.
Proof.
  revert a. induction p as [| c p IH]; intros a Hlen.
  - destruct a, b; reflexivity.
  - destruct a as [| d a]; simpl in *; [lia |].
    destruct (ascii_dec c d); [apply IH; lia | reflexivity].
Qed.

Lemma split_from_skip sep (a s : string) :
  packaging.split_from sep (String.length a) (a ++ s) =
  packaging.split_from sep 0 s.
Proof. induction a as [| c a IH]; simpl; [reflexivity | assumption]. Qed.

Lemma split_from_nonempty sep k s : packaging.split_from sep k s <> [].
Proof.
  revert k. induction s as [| c s IH]; intros k;
    cbn [packaging.split_from]; [discriminate |].
  destruct k; [| apply IH].
  destruct (String.prefix sep (String c s)); [discriminate |].
  destruct (packaging.split_from sep 0 s); discriminate.
Qed.

Lemma app_assoc_string (a b c : string) : (a ++ b) ++ c = a ++ (b ++ c).
Proof.
  induction a as [| x a IH]; [reflexivity |].
  change (String x ((a ++ b) ++ c) = String x (a ++ (b ++ c))). congruence.
Qed.

Lemma length_app_string (a b : string) :
  String.length (a ++ b) = String.length a + String.length b.
Proof.
  induction a as [| x a IH]; [reflexivity |].
  change (S (String.length (a ++ b)) = S (String.length a + String.length b)).
  congruence.
Qed.

(** A piece in front of a separator comes out whole when no occurrence of
    the separator starts inside it: [init] is the separator less its last
    character. *)
Lemma split_piece sep init l a rest :
  sep = init ++ String l EmptyString ->
  PyStr.contains sep (a ++ init) = false ->
  packaging.split_from sep 0 (a ++ sep ++ rest) =
  a :: packaging.split_from sep 0 rest.
Proof.
  intros Hsep. induction a as [| c a IH]; intros Hclean.
  - destruct sep as [| c0 s0]; [destruct init; discriminate Hsep |].
    change (EmptyString ++ String c0 s0 ++ rest) with (String c0 (s0 ++ rest)).
    unfold packaging.split_from at 1; fold packaging.split_from.
    change (String c0 (s0 ++ rest)) with (String c0 s0 ++ rest).
    rewrite prefix_app.
    change (String.length (String c0 s0) - 1) with (String.length s0 - 0).
    rewrite Nat.sub_0_r, split_from_skip. reflexivity.
  - change (PyStr.contains sep (String c a ++ init))
      with (String.prefix sep (String c (a ++ init))
            || PyStr.contains sep (a ++ init)) in Hclean.
    apply orb_false_iff in Hclean as [Hp Hc].
    change (String c a ++ sep ++ rest) with (String c (a ++ sep ++ rest)).
    unfold packaging.split_from at 1; fold packaging.split_from.
    assert (Hmiss : String.prefix sep (String c (a ++ sep ++ rest)) = false).
    { rewrite <- Hp. rewrite Hsep at 2.
      rewrite (app_assoc_string init), <- (app_assoc_string a init).
      change (String c ((a ++ init) ++ String l EmptyString ++ rest))
        with (String c (a ++ init) ++ (String l EmptyString ++ rest)).
      apply prefix_app_long. rewrite Hsep. simpl.
      rewrite !length_app_string. simpl. lia. }
    rewrite Hmiss, (IH Hc). reflexivity.
Qed.

Lemma split_absent sep s :
  PyStr.contains sep s = false -> packaging.split_from sep 0 s = [s].
Proof.
  induction s as [| c s IH]; [reflexivity |].
  intros H. change (PyStr.contains sep (String c s))
    with (String.prefix sep (String c s) || PyStr.contains sep s) in H.
  apply orb_false_iff in H as [Hp Hc].
  unfold packaging.split_from; fold packaging.split_from.
  rewrite Hp, (IH Hc). reflexivity.
Qed.

Lemma template_separator_init :
  packaging.template_separator =
  (packaging.nl ++ "--") ++ String (ascii_of_nat 10) EmptyString.
Proof. reflexivity. Qed.

(** X5. A template round-trips: the text made of a front face, the
    separator line and a back face loads to exactly those two faces, under
    the name of the file, provided no separator starts inside the front face
    and the back face holds none. *)
Theorem load_template_round_trip (file front back : string) :
  PyStr.contains packaging.template_separator (front ++ packaging.nl ++ "--") = false ->
  PyStr.contains packaging.template_separator back = false ->
  packaging.load_template file (front ++ packaging.template_separator ++ back) =
    Ok {| tpl_name := packaging.path_stem file; qfmt := front; afmt := back |}.
Proof.
  intros Hfront Hback. unfold packaging.load_template, packaging.str_split.
  rewrite (split_piece _ _ _ front back template_separator_init Hfront).
  rewrite (split_absent _ _ Hback). reflexivity.
Qed.

Lemma load_template_round_trip_witness :
  packaging.load_template "style/templates/Capital.html"
    ("FRONT" ++ packaging.template_separator ++ "BACK") =
  Ok {| tpl_name := "Capital"; qfmt := "FRONT"; afmt := "BACK" |}.
Proof.
  apply (load_template_round_trip "style/templates/Capital.html" "FRONT" "BACK");
    reflexivity.
Defined.

(** X6. Which templates do not load.  A text without the separator does
    not: the unpacking of the split raises a [ValueError] for want of a
    second piece.  A text with two occurrences of the separator apart from
    each other -- no separator starting inside the piece in front of either
    -- does not: the [ValueError] is for a piece too many.  Two separator
    lines that follow each other share a newline and make one occurrence
    only: such a text loads, and its back face starts with the second line
    of dashes. *)
Theorem load_template_wrong_separators (file : string) :
  (forall text,
     PyStr.contains packaging.template_separator text = false ->
     packaging.load_template file text =
       Raise (Exn ValueError "not enough values to unpack (expected 2, got 1)")) /\
  (forall a b c,
     PyStr.contains packaging.template_separator (a ++ packaging.nl ++ "--") = false ->
     PyStr.contains packaging.template_separator (b ++ packaging.nl ++ "--") = false ->
     packaging.load_template file
       (a ++ packaging.template_separator ++ b ++ packaging.template_separator ++ c) =
       Raise (Exn ValueError "too many values to unpack (expected 2)")) /\
  (forall a b,
     PyStr.contains packaging.template_separator (a ++ packaging.nl ++ "--") = false ->
     PyStr.contains packaging.template_separator ("--" ++ packaging.nl ++ b) = false ->
     packaging.load_template file
       (a ++ packaging.nl ++ "--" ++ packaging.nl ++ "--" ++ packaging.nl ++ b) =
       Ok {| tpl_name := packaging.path_stem file;
             qfmt := a; afmt := "--" ++ packaging.nl ++ b |}).
Proof.
  split; [| split].
  - intros text H. unfold packaging.load_template, packaging.str_split.
    rewrite (split_absent _ _ H). reflexivity.
  - intros a b c Ha Hb. unfold packaging.load_template, packaging.str_split.
    rewrite (split_piece _ _ _ a _ template_separator_init Ha).
    rewrite (split_piece _ _ _ b _ template_separator_init Hb).
    pose proof (split_from_nonempty packaging.template_separator 0 c) as Hne.
    destruct (packaging.split_from packaging.template_separator 0 c);
      [congruence | reflexivity].
  - intros a b Ha Hb. unfold packaging.load_template, packaging.str_split.
    change (a ++ packaging.nl ++ "--" ++ packaging.nl ++ "--" ++ packaging.nl ++ b)
      with (a ++ packaging.template_separator ++ ("--" ++ packaging.nl ++ b)).
    rewrite (split_piece _ _ _ a _ template_separator_init Ha).
    rewrite (split_absent _ _ Hb). reflexivity.
Qed.

Lemma load_template_wrong_separators_witness :
  packaging.load_template "t.html" "FRONT only" =
    Raise (Exn ValueError "not enough values to unpack (expected 2, got 1)") /\
  packaging.load_template "t.html"
    ("A" ++ packaging.template_separator ++ "B" ++ packaging.template_separator ++ "C") =
    Raise (Exn ValueError "too many values to unpack (expected 2)") /\
  packaging.load_template "t.html"
    ("A" ++ packaging.nl ++ "--" ++ packaging.nl ++ "--" ++ packaging.nl ++ "B") =
    Ok {| tpl_name := "t"; qfmt := "A"; afmt := "--" ++ packaging.nl ++ "B" |}.
Proof.
  split; [| split].
  - apply (proj1 (load_template_wrong_separators "t.html")). reflexivity.
  - apply (proj1 (proj2 (load_template_wrong_separators "t.html")) "A" "B" "C");
      reflexivity.
  - apply (proj2 (proj2 (load_template_wrong_separators "t.html")) "A" "B");
      reflexivity.
Defined.

Lemma prefix_true_app (p s : string) :
  String.prefix p s = true -> exists rest, s = p ++ rest.
Proof.
  revert s. induction p as [| c p IH]; intros s H.
  - exists s. reflexivity.
  - destruct s as [| d s]; simpl in H; [discriminate |].
    destruct (ascii_dec c d) as [<- |]; [| discriminate].
    destruct (IH s H) as [rest ->]. exists rest. reflexivity.
Qed.

Lemma concat_cons_piece sep c h t :
  String.concat sep (String c h :: t) = String c (String.concat sep (h :: t)).
Proof. destruct t; reflexivity. Qed.

(** Splitting loses nothing: the pieces joined by the separator give the
    string back. *)
Lemma join_split sep s :
  sep <> EmptyString ->
  String.concat sep (packaging.split_from sep 0 s) = s.
Proof.
  intros Hsep.
  assert (H : forall n s, String.length s <= n ->
                String.concat sep (packaging.split_from sep 0 s) = s).
  { clear s. induction n as [| n IH]; intros s Hlen.
    - destruct s; [reflexivity | simpl in Hlen; lia].
    - destruct s as [| c s]; [reflexivity |].
      unfold packaging.split_from; fold packaging.split_from.
      destruct (String.prefix sep (String c s)) eqn:Hp.
      + destruct (prefix_true_app _ _ Hp) as [rest Hrest].
        destruct sep as [| c0 s0]; [congruence |].
        injection Hrest as Hc Hs. subst c s.
        change (String.length (String c0 s0) - 1) with (String.length s0 - 0).
        rewrite Nat.sub_0_r, split_from_skip.
        pose proof (split_from_nonempty (String c0 s0) 0 rest) as Hne.
        specialize (IH rest).
        destruct (packaging.split_from (String c0 s0) 0 rest) as [| h t];
          [congruence |].
        change (String.concat (String c0 s0) (EmptyString :: h :: t))
          with (String c0 s0 ++ String.concat (String c0 s0) (h :: t)).
        rewrite IH; [reflexivity |].
        simpl in Hlen. rewrite length_app_string in Hlen. lia.
      + pose proof (split_from_nonempty sep 0 s) as Hne.
        specialize (IH s).
        destruct (packaging.split_from sep 0 s) as [| h t]; [congruence |].
        rewrite concat_cons_piece, IH; [reflexivity | simpl in Hlen; lia]. }
  apply (H (String.length s)). lia.
Qed.

Lemma load_template_faces file text t :
  packaging.load_template file text = Ok t ->
  text = qfmt t ++ packaging.template_separator ++ afmt t /\
  tpl_name t = packaging.path_stem file.
Proof.
  unfold packaging.load_template, packaging.str_split.
  pose proof (join_split packaging.template_separator text) as Hjoin.
  destruct (packaging.split_from packaging.template_separator 0 text)
    as [| front [| back [| x l]]]; try discriminate.
  intros [= <-]. simpl. split; [| reflexivity].
  symmetry. apply Hjoin. discriminate.
Qed.

Lemma load_template_raises file text e :
  packaging.load_template file text = Raise e -> exn_cls e = ValueError.
Proof.
  unfold packaging.load_template.
  destruct (packaging.str_split packaging.template_separator text)
    as [| front [| back [| x l]]]; intros [= <-]; reflexivity.
Qed.

(** X7. [load_templates] is all or nothing.  When it returns, there is one
    template per file, in the order of the files; each is named after its
    file and its two faces, put back around the separator, are the text of
    the file.  When a file has no separator, the whole load raises a
    [ValueError], wherever the file stands in the list. *)
Theorem load_templates_all_or_nothing (template_files : list (string * string)) :
  (forall templates,
     packaging.load_templates template_files = Ok templates ->
     Forall2 (fun ft t =>
                snd ft = qfmt t ++ packaging.template_separator ++ afmt t /\
                tpl_name t = packaging.path_stem (fst ft))
             template_files templates) /\
  (Exists (fun ft => PyStr.contains packaging.template_separator (snd ft) = false)
          template_files ->
   exists e, packaging.load_templates template_files = Raise e /\
             exn_cls e = ValueError).
Proof.
  split.
  - induction template_files as [| [file text] rest IH]; intros templates; simpl.
    + intros [= <-]. constructor.
    + destruct (packaging.load_template file text) as [t | e] eqn:Ht; simpl;
        [| discriminate].
      destruct (packaging.load_templates rest) as [ts | e]; simpl; [| discriminate].
      intros [= <-]. constructor; [| apply IH; reflexivity].
      apply (load_template_faces _ _ _ Ht).
  - induction template_files as [| [file text] rest IH]; intros Hex.
    + inversion Hex.
    + simpl. destruct (packaging.load_template file text) as [t | e] eqn:Ht; simpl.
      * apply Exists_cons in Hex as [Hbad | Hex].
        -- simpl in Hbad. unfold packaging.load_template, packaging.str_split in Ht.
           rewrite (split_absent _ _ Hbad) in Ht. discriminate.
        -- destruct (IH Hex) as (e & -> & Hcls). simpl. eauto.
      * exists e. split; [reflexivity |]. eapply load_template_raises, Ht.
Qed.

Lemma load_templates_all_or_nothing_witness :
  exists e,
    packaging.load_templates
      [ ("t/Capital.html", "FRONT" ++ packaging.template_separator ++ "BACK");
        ("t/Comarca.html", "FRONT -- BACK") ] = Raise e /\
    exn_cls e = ValueError.
Proof.
  apply (proj2 (load_templates_all_or_nothing _)).
  apply Exists_cons_tl, Exists_cons_hd. reflexivity.
Defined.

Lemma prefix_empty s : String.prefix EmptyString s = true.
Proof. destruct s; reflexivity. Qed.

Lemma prefix_char ch c s :
  String.prefix (String ch EmptyString) (String c s) = Ascii.eqb ch c.
Proof.
  simpl. destruct (ascii_dec ch c) as [-> | Hne].
  - rewrite prefix_empty, Ascii.eqb_refl. reflexivity.
  - symmetry. apply Ascii.eqb_neq, Hne.
Qed.

Lemma contains_char_cons ch c s :
  PyStr.contains (String ch EmptyString) (String c s) =
  Ascii.eqb ch c || PyStr.contains (String ch EmptyString) s.
Proof.
  change (PyStr.contains (String ch EmptyString) (String c s))
    with (String.prefix (String ch EmptyString) (String c s)
          || PyStr.contains (String ch EmptyString) s).
  rewrite prefix_char. reflexivity.
Qed.

Lemma contains_char_app ch a b :
  PyStr.contains (String ch EmptyString) (a ++ b) =
  PyStr.contains (String ch EmptyString) a
  || PyStr.contains (String ch EmptyString) b.
Proof.
  induction a as [| c a IH]; [reflexivity |].
  change (String c a ++ b) with (String c (a ++ b)).
  rewrite !contains_char_cons, IH, orb_assoc. reflexivity.
Qed.

Lemma rfind_app ch a b :
  packaging.rfind ch (a ++ b) =
  match packaging.rfind ch b with
  | Some i => Some (String.length a + i)
  | None => packaging.rfind ch a
  end.
Proof.
  induction a as [| c a IH];
    [change (EmptyString ++ b) with b; destruct (packaging.rfind ch b); reflexivity |].
  change (String c a ++ b) with (String c (a ++ b)).
  cbn [packaging.rfind]. rewrite IH.
  destruct (packaging.rfind ch b); reflexivity.
Qed.

Lemma substring_prefix a b :
  String.substring 0 (String.length a) (a ++ b) = a.
Proof.
  induction a as [| c a IH]; [destruct b; reflexivity |].
  change (String c a ++ b) with (String c (a ++ b)). simpl. congruence.
Qed.

(** X8. The name of a template is the name of its file, without the
    directory and without the extension: for a file [dir/base.html] whose
    [base] is not empty and holds no slash, it is [base], dots included. *)
Theorem path_stem_html (dir base : string) :
  PyStr.contains "/" base = false -> base <> EmptyString ->
  packaging.path_stem (dir ++ "/" ++ base ++ ".html") = base.
Proof.
  intros Hslash Hne. unfold packaging.path_stem.
  assert (Hname : path_name (dir ++ "/" ++ base ++ ".html") = base ++ ".html").
  { apply path_name_basename.
    - rewrite contains_char_app, Hslash. reflexivity.
    - destruct base; discriminate.
    - destruct base as [| c [| d base]]; discriminate. }
  rewrite Hname, rfind_app. cbn [packaging.rfind]. simpl Ascii.eqb. cbv iota.
  rewrite Nat.add_0_r, length_app_string.
  assert (Hlen : 0 < String.length base) by (destruct base; simpl; [congruence | lia]).
  replace (0 <? String.length base)%nat with true
    by (symmetry; apply Nat.ltb_lt; assumption).
  replace (String.length base <? String.length base + String.length ".html" - 1)%nat
    with true by (symmetry; apply Nat.ltb_lt; simpl; lia).
  simpl andb. cbv iota. apply substring_prefix.
Qed.

Lemma path_stem_html_witness :
  packaging.path_stem ("style/templates" ++ "/" ++ "Capital.v2" ++ ".html")
    = "Capital.v2".
Proof. apply path_stem_html; [reflexivity | discriminate]. Defined.

(** ** Names *)

(** X9. The name given to a category is what follows the last colon of its
    title, and the whole title when it has no colon; [main] and the
    alternate client derive the same names from the categories kept, and
    the alternate client's new records carry nothing but that name. *)
Theorem comarca_title_after_last_colon :
  (forall page before name,
     page_title page = before ++ ":" ++ name ->
     PyStr.contains ":" name = false ->
     packaging.comarca_title page = name) /\
  (forall page,
     PyStr.contains ":" (page_title page) = false ->
     packaging.comarca_title page = page_title page) /\
  (forall lower wiki,
     WikiApi.get_comarques lower wiki =
     List.map (fun page => WikiApi.mkComarcaPage (packaging.comarca_title page))
              (run.get_comarques_categories lower wiki)).
Proof.
  unfold packaging.comarca_title, PyStr.last. repeat split.
  - intros page before name -> Hname.
    change (before ++ ":" ++ name) with (before ++ String ":" name).
    rewrite split_app, (split_without_sep _ _ Hname). apply last_last.
  - intros page H. rewrite (split_without_sep _ _ H). reflexivity.
Qed.

Lemma comarca_title_after_last_colon_witness :
  packaging.comarca_title
    {| page_title := "Categoria:Bages"; page_ns := 14; page_categories := [] |}
  = "Bages".
Proof.
  apply (proj1 comarca_title_after_last_colon _ "Categoria" "Bages");
    reflexivity.
Defined.

Lemma replace_space_cons c s :
  PyStr.replace_from " " "_" 0 (String c s) =
  String (if Ascii.eqb " " c then "_"%char else c)
         (PyStr.replace_from " " "_" 0 s).
Proof.
  unfold PyStr.replace_from at 1; fold PyStr.replace_from.
  rewrite prefix_char. destruct (Ascii.eqb " " c); reflexivity.
Qed.

Lemma slug_facts (comarca_name : string) :
  PyStr.contains " " (PyStr.replace " " "_" comarca_name) = false /\
  String.length (PyStr.replace " " "_" comarca_name) = String.length comarca_name /\
  (PyStr.contains " " comarca_name = false ->
   PyStr.replace " " "_" comarca_name = comarca_name) /\
  PyStr.contains "/" (PyStr.replace " " "_" comarca_name)
    = PyStr.contains "/" comarca_name.
Proof.
  unfold PyStr.replace.
  induction comarca_name as [| c s (IH1 & IH2 & IH3 & IH4)];
    [repeat split |].
  rewrite replace_space_cons, !contains_char_cons, IH1, IH4.
  destruct (Ascii.eqb " " c) eqn:E.
  - apply Ascii.eqb_eq in E. subst c. repeat split; simpl; congruence.
  - rewrite E. repeat split; simpl; try congruence.
    intros H. rewrite (IH3 H). reflexivity.
Qed.

(** X10. The slug of a comarca name, used in its page URL and in its file
    names, holds no space; it has the length of the name, is the name itself
    when the name has no space, and has a slash exactly when the name has
    one. *)
Theorem slug_without_spaces (comarca_name : string) :
  let slug := PyStr.replace " " "_" comarca_name in
  PyStr.contains " " slug = false /\
  String.length slug = String.length comarca_name /\
  (PyStr.contains " " comarca_name = false -> slug = comarca_name) /\
  PyStr.contains "/" slug = PyStr.contains "/" comarca_name.
Proof. apply slug_facts. Qed.

Lemma slug_without_spaces_witness :
  PyStr.replace " " "_" "Alt Camp" = "Alt_Camp" /\
  PyStr.replace " " "_" "Bages" = "Bages".
Proof.
  split; [reflexivity |].
  apply (proj1 (proj2 (proj2 (slug_without_spaces "Bages")))). reflexivity.
Defined.

(** ** The title sent to the media repository *)

(** A pattern without the letter F is matched at the head of a rewritten
    title exactly when it is matched at the head of the title: the rewriting
    only touches occurrences, which start with F, and puts an F there. *)
Lemma prefix_rewritten q s :
  PyStr.contains "F" q = false ->
  String.prefix q (PyStr.replace_from "Fitxer:" "File:" 0 s) = String.prefix q s.
Proof.
  revert s. induction q as [| d q IH]; intros s Hq.
  - rewrite !prefix_empty. reflexivity.
  - rewrite contains_char_cons in Hq. apply orb_false_iff in Hq as [Hd Hq].
    destruct s as [| c s]; [reflexivity |].
    unfold PyStr.replace_from at 1; fold PyStr.replace_from.
    destruct (String.prefix "Fitxer:" (String c s)) eqn:Hp.
    + destruct (prefix_true_app _ _ Hp) as [rest Hrest].
      injection Hrest as Hc Hs. subst c.
      change ("File:" ++ ?x) with (String "F" ("ile:" ++ x)).
      simpl. destruct (ascii_dec d "F") as [-> |]; [discriminate | reflexivity].
    + simpl. destruct (ascii_dec d c); [apply IH, Hq | reflexivity].
Qed.

Lemma rewritten_without_Fitxer s :
  PyStr.contains "Fitxer:" (PyStr.replace_from "Fitxer:" "File:" 0 s) = false.
Proof.
  assert (H : forall n s, String.length s <= n ->
    PyStr.contains "Fitxer:" (PyStr.replace_from "Fitxer:" "File:" 0 s) = false).
  { clear s. induction n as [| n IH]; intros s Hlen.
    - destruct s; [reflexivity | simpl in Hlen; lia].
    - destruct s as [| c s]; [reflexivity |].
      destruct (String.prefix "Fitxer:" (String c s)) eqn:Hp.
      + destruct (prefix_true_app _ _ Hp) as [rest Hrest]. rewrite Hrest.
        pose proof (replace_hit "F" "itxer:" "File:" rest) as Hhit.
        unfold PyStr.replace in Hhit. rewrite Hhit.
        assert (Hrec : PyStr.contains "Fitxer:"
                         (PyStr.replace_from "Fitxer:" "File:" 0 rest) = false).
        { apply IH. rewrite Hrest in Hlen. simpl in Hlen.
          rewrite length_app_string in Hlen. simpl in Hlen. lia. }
        revert Hrec. generalize (PyStr.replace_from "Fitxer:" "File:" 0 rest).
        intros x Hx.
        change ("File:" ++ x)
          with (String "F" (String "i" (String "l" (String "e" (String ":" x))))).
        cbn [PyStr.contains]. rewrite Hx. reflexivity.
      + pose proof (replace_miss "F" "itxer:" "File:" c s Hp) as Hmiss.
        unfold PyStr.replace in Hmiss. rewrite Hmiss.
        change (PyStr.contains "Fitxer:"
                  (String c (PyStr.replace_from "Fitxer:" "File:" 0 s)))
          with (String.prefix "Fitxer:"
                  (String c (PyStr.replace_from "Fitxer:" "File:" 0 s))
                || PyStr.contains "Fitxer:"
                     (PyStr.replace_from "Fitxer:" "File:" 0 s)).
        rewrite IH by (simpl in Hlen; lia). rewrite orb_false_r.
        change (String.prefix "Fitxer:"
                  (String c (PyStr.replace_from "Fitxer:" "File:" 0 s)))
          with (if ascii_dec "F" c
                then String.prefix "itxer:"
                       (PyStr.replace_from "Fitxer:" "File:" 0 s)
                else false).
        change (String.prefix "Fitxer:" (String c s))
          with (if ascii_dec "F" c then String.prefix "itxer:" s else false)
          in Hp.
        destruct (ascii_dec "F" c); [| reflexivity].
        rewrite (prefix_rewritten "itxer:" s); [exact Hp | reflexivity]. }
  apply (H (String.length s)). lia.
Qed.

(** X11. Whatever the image title, the [titles] value that [get_image_info]
    sends to the media repository holds no "Fitxer:" any more, and rewriting
    it again changes nothing. *)
Theorem titles_without_Fitxer (w : World) (image_title : string) :
  let titles := PyStr.replace "Fitxer:" "File:" image_title in
  PyStr.contains "Fitxer:" titles = false /\
  PyStr.replace "Fitxer:" "File:" titles = titles /\
  sent (snd (run.get_image_info image_title w))
    = (sent w ++ [imageinfo_request titles])%list.
Proof.
  intros titles. subst titles.
  assert (H : PyStr.contains "Fitxer:"
                (PyStr.replace "Fitxer:" "File:" image_title) = false)
    by apply rewritten_without_Fitxer.
  split; [exact H |]. split; [apply replace_absent, H |].
  apply run_get_image_info_sent.
Qed.

(** ** The two clients of the image API *)

Lemma svg_titles_image_refs titles :
  run.svg_titles (List.map image_ref titles) =
  Ok (List.filter (PyStr.endswith ".svg") titles).
Proof.
  induction titles as [| t titles IH]; [reflexivity |].
  cbn [List.map run.svg_titles image_ref ir_title getitem rbind List.filter].
  fold image_ref. rewrite IH.
  destruct (PyStr.endswith ".svg" t); reflexivity.
Qed.

Lemma titles_of_image_refs titles :
  WikiApi.titles_of (List.map image_ref titles) = Ok titles.
Proof.
  induction titles as [| t titles IH]; [reflexivity |].
  cbn [List.map WikiApi.titles_of image_ref ir_title getitem rbind].
  fold image_ref. rewrite IH. reflexivity.
Qed.

(** X12. The two clients agree on a well-formed answer: when the page entry
    lists images that all have a title, the alternate client returns all the
    titles, in order, and run.py returns those of them that end in ".svg";
    both make the same single request and log nothing. *)
Theorem image_titles_of_both_clients
    (w : World) (page_title : string) (r : Response) (page_id : string)
    (titles : list string) (others : list (string * PageEntry)) :
  net w (sent w) (images_request page_title) = Ok r ->
  json_decode w (content r) =
    Ok (images_response page_id (List.map image_ref titles) others) ->
  let w1 := with_sent w (sent w ++ [images_request page_title]) in
  WikiApi.get_image_titles page_title w = (Ok titles, w1) /\
  run.get_image_titles page_title w =
    (Ok (List.filter (PyStr.endswith ".svg") titles), w1).
Proof.
  intros Hnet Hjson w1. split.
  - unfold WikiApi.get_image_titles, WikiApi.catch_http_errors, try_except,
      bind, requests_get, json, lift, WikiApi.wikipedia_api_url.
    fold (images_request page_title). rewrite Hnet. fold w1.
    change (json_decode w1) with (json_decode w). rewrite Hjson. simpl.
    unfold run.dict_get. simpl. rewrite String.eqb_refl. simpl.
    rewrite titles_of_image_refs. reflexivity.
  - unfold run.get_image_titles, bind, requests_get, json, lift.
    fold (images_request page_title). rewrite Hnet. fold w1.
    change (json_decode w1) with (json_decode w). rewrite Hjson. simpl.
    unfold run.dict_get. simpl. rewrite String.eqb_refl. simpl.
    rewrite svg_titles_image_refs. reflexivity.
Qed.

Lemma image_titles_of_both_clients_witness :
  let w1 := with_sent bages_world [images_request "Bages"] in
  WikiApi.get_image_titles "Bages" bages_world =
    (Ok ["Fitxer:Localitzacio del Bages a Catalunya.svg"; "Fitxer:Montserrat.jpg"],
     w1) /\
  run.get_image_titles "Bages" bages_world =
    (Ok ["Fitxer:Localitzacio del Bages a Catalunya.svg"], w1).
Proof.
  eapply (image_titles_of_both_clients bages_world "Bages" _ "38279"
            ["Fitxer:Localitzacio del Bages a Catalunya.svg"; "Fitxer:Montserrat.jpg"]
            []);
    reflexivity.
Defined.

Lemma svg_titles_end_in_svg images titles :
  run.svg_titles images = Ok titles ->
  Forall (fun t => PyStr.endswith ".svg" t = true) titles.
Proof.
  revert titles. induction images as [| image images IH]; intros titles.
  - intros [= <-]. constructor.
  - cbn [run.svg_titles]. destruct (ir_title image) as [t |];
      cbn [getitem rbind]; [| discriminate].
    destruct (PyStr.endswith ".svg" t) eqn:Ht; [| apply IH].
    cbn [rbind]. destruct (run.svg_titles images) as [ts | e];
      cbn [rbind]; [| discriminate].
    intros [= <-]. constructor; [assumption | apply IH; reflexivity].
Qed.

(** X13. Whatever the service answers, a title that [get_image_titles] of
    run.py returns ends in ".svg". *)
Theorem get_image_titles_only_svg (w w' : World) (page_title : string)
    (titles : list string) :
  run.get_image_titles page_title w = (Ok titles, w') ->
  Forall (fun t => PyStr.endswith ".svg" t = true) titles.
Proof.
  unfold run.get_image_titles, bind, requests_get, json, lift.
  destruct (net w (sent w) _) as [r | e]; [| discriminate].
  destruct (json_decode _ (content r)) as [response | e]; [| discriminate].
  destruct (run.query_pages response) as [pages | e]; [| discriminate].
  destruct (run.next_iter pages) as [page_id | e]; [| discriminate].
  destruct (run.dict_get pages page_id) as [entry | e]; [| discriminate].
  destruct (getitem "images" (pe_images entry)) as [images | e]; [| discriminate].
  intros [= H _]. eapply svg_titles_end_in_svg, H.
Qed.

Lemma get_image_titles_only_svg_witness :
  Forall (fun t => PyStr.endswith ".svg" t = true)
         ["Fitxer:Localitzacio del Bages a Catalunya.svg"].
Proof.
  apply (get_image_titles_only_svg bages_world
           (with_sent bages_world [images_request "Bages"]) "Bages").
  reflexivity.
Defined.

(** X14. The error policies of the two clients.  When the request for the
    image titles fails with an exception of the [requests] family, the
    alternate client returns the empty list and logs one error that names
    [get_image_titles] and the exception; run.py lets the exception through.
    An exception of another class passes through the alternate client too,
    and an exception of the [requests] family never comes out of it. *)
Theorem get_image_titles_error_policy (w : World) (page_title : string) :
  let w1 := with_sent w (sent w ++ [images_request page_title]) in
  (forall e, net w (sent w) (images_request page_title) = Raise e ->
     run.get_image_titles page_title w = (Raise e, w1) /\
     (is_http_exc e = true ->
      WikiApi.get_image_titles page_title w =
        (Ok [], with_log w1 (log w ++ [(ERROR, "HTTP exception in get_image_titles: "
                                               ++ exn_str e)]))) /\
     (is_http_exc e = false ->
      WikiApi.get_image_titles page_title w = (Raise e, w1))) /\
  (forall e, fst (WikiApi.get_image_titles page_title w) = Raise e ->
     is_http_exc e = false).
Proof.
  intros w1. split.
  - intros e Hnet. split; [| split].
    + unfold run.get_image_titles, bind, requests_get.
      fold (images_request page_title). rewrite Hnet. reflexivity.
    + intros He. unfold WikiApi.get_image_titles, WikiApi.catch_http_errors,
        try_except, bind, requests_get, WikiApi.wikipedia_api_url.
      fold (images_request page_title). rewrite Hnet, He. reflexivity.
    + intros He. unfold WikiApi.get_image_titles, WikiApi.catch_http_errors,
        try_except, bind, requests_get, WikiApi.wikipedia_api_url.
      fold (images_request page_title). rewrite Hnet, He. reflexivity.
  - intros e. unfold WikiApi.get_image_titles, WikiApi.catch_http_errors,
      try_except.
    match goal with
    | |- context [bind ?m ?k w] => destruct (bind m k w) as [[a | e'] w']
    end; simpl; [discriminate |].
    destruct (is_http_exc e') eqn:He; simpl; [discriminate |].
    intros [= <-]. exact He.
Qed.

Lemma get_image_titles_error_policy_witness :
  WikiApi.get_image_titles "Bages" offline =
    (Ok [],
     with_log (with_sent offline [images_request "Bages"])
       [(ERROR, "HTTP exception in get_image_titles: Network is unreachable")]) /\
  fst (run.get_image_titles "Bages" offline) =
    Raise (Exn ConnectionError "Network is unreachable").
Proof.
  destruct (proj1 (get_image_titles_error_policy offline "Bages") _ eq_refl)
    as (Hrun & Halt & _).
  split; [apply Halt; reflexivity | rewrite Hrun; reflexivity].
Defined.

(** X15. What [get_image_info] of run.py makes of the answer of the media
    repository.  Without the [imageinfo] member it returns [None] and logs a
    warning that names the title as it was given, before the rewriting; with
    a non-empty [imageinfo] list it returns the [url] of the first element
    and ignores the others; an empty list is an [IndexError] and a first
    element without [url] a [KeyError]. *)
Theorem get_image_info_outcomes
    (w : World) (image_title : string) (r : Response) (page_id : string)
    (imageinfo : option (list ImageInfo)) (others : list (string * PageEntry)) :
  let rq := imageinfo_request (PyStr.replace "Fitxer:" "File:" image_title) in
  let w1 := with_sent w (sent w ++ [rq]) in
  net w (sent w) rq = Ok r ->
  json_decode w (content r) = Ok (imageinfo_response page_id imageinfo others) ->
  (imageinfo = None ->
   run.get_image_info image_title w =
     (Ok None,
      with_log w1 (log w ++ [(WARNING, "No image info found for " ++ image_title)]))) /\
  (forall u infos,
     imageinfo = Some ({| ii_url := Some u |} :: infos) ->
     run.get_image_info image_title w = (Ok (Some u), w1)) /\
  (imageinfo = Some [] ->
   run.get_image_info image_title w =
     (Raise (Exn IndexError "list index out of range"), w1)) /\
  (forall infos,
     imageinfo = Some ({| ii_url := None |} :: infos) ->
     run.get_image_info image_title w = (Raise (key_error "url"), w1)).
Proof.
  intros rq w1 Hnet Hjson. subst rq w1.
  unfold run.get_image_info, bind, requests_get, json, lift.
  fold (imageinfo_request (PyStr.replace "Fitxer:" "File:" image_title)).
  rewrite Hnet.
  set (w1 := with_sent w (sent w ++
               [imageinfo_request (PyStr.replace "Fitxer:" "File:" image_title)])).
  change (json_decode w1) with (json_decode w). rewrite Hjson. simpl.
  unfold run.dict_get. simpl. rewrite String.eqb_refl. simpl.
  repeat split.
  - intros ->. reflexivity.
  - intros u infos ->. reflexivity.
  - intros ->. reflexivity.
  - intros infos ->. reflexivity.
Qed.

Lemma get_image_info_outcomes_witness :
  run.get_image_info "Fitxer:Escut del Bages.svg" unknown_image_world =
    (Ok None,
     with_log (with_sent unknown_image_world
                 [imageinfo_request "File:Escut del Bages.svg"])
       [(WARNING, "No image info found for Fitxer:Escut del Bages.svg")]).
Proof.
  eapply (proj1 (get_image_info_outcomes unknown_image_world
                   "Fitxer:Escut del Bages.svg" _ "-1" None [] eq_refl eq_refl)).
  reflexivity.
Defined.

(** ** The alternate client's record, again *)

Lemma for_titles_never_a_url image_titles c0 c w :
  (WikiApi.cp_map_url c = WikiApi.cp_map_url c0 \/ WikiApi.cp_map_url c = None) ->
  (WikiApi.cp_escut_url c = WikiApi.cp_escut_url c0
   \/ WikiApi.cp_escut_url c = None) ->
  let c' := snd (fst (WikiApi.for_titles image_titles c w)) in
  (WikiApi.cp_map_url c' = WikiApi.cp_map_url c0 \/ WikiApi.cp_map_url c' = None) /\
  (WikiApi.cp_escut_url c' = WikiApi.cp_escut_url c0
   \/ WikiApi.cp_escut_url c' = None).
Proof.
  revert c w. induction image_titles as [| title rest IH]; intros c w Hm He;
    cbn [WikiApi.for_titles]; [split; assumption |].
  destruct (PyStr.contains "Mapa" title).
  - pose proof (alternate_get_image_info_no_url title w) as Hno.
    destruct (WikiApi.get_image_info title w) as [[[u |] | e] w'];
      simpl in *; [exfalso; eapply Hno; reflexivity | | split; assumption].
    apply IH; [right; reflexivity | exact He].
  - destruct (PyStr.contains "Escut" title || PyStr.contains "Coat of arms" title).
    + pose proof (alternate_get_image_info_no_url title w) as Hno.
      destruct (WikiApi.get_image_info title w) as [[[u |] | e] w'];
        simpl in *; [exfalso; eapply Hno; reflexivity | | split; assumption].
      apply IH; [exact Hm | right; reflexivity].
    + apply IH; assumption.
Qed.

Lemma for_titles_unmatched image_titles c w :
  Forall unmatched image_titles ->
  WikiApi.for_titles image_titles c w = (Ok tt, c, w).
Proof.
  induction 1 as [| title rest (H1 & H2 & H3) _ IH]; [reflexivity |].
  cbn [WikiApi.for_titles]. rewrite H1, H2, H3. exact IH.
Qed.

(** X16. [get_images_for_comarca] never stores the URL of an image: after
    the call, whether it returned or raised, each of map_url and escut_url
    is what it was or [None].  When no title of the page matches a heuristic
    the call returns [None] and the record is unchanged. *)
Theorem get_images_for_comarca_never_a_url
    (comarca : WikiApi.ComarcaPage) (w : World) :
  let out := WikiApi.get_images_for_comarca comarca w in
  let comarca' := snd (fst out) in
  (WikiApi.cp_map_url comarca' = WikiApi.cp_map_url comarca
   \/ WikiApi.cp_map_url comarca' = None) /\
  (WikiApi.cp_escut_url comarca' = WikiApi.cp_escut_url comarca
   \/ WikiApi.cp_escut_url comarca' = None) /\
  (forall image_titles w1,
     WikiApi.get_image_titles (WikiApi.cp_comarca comarca) w = (Ok image_titles, w1) ->
     Forall unmatched image_titles ->
     out = (Ok WikiApi.ReturnedNone, comarca, w1)).
Proof.
  unfold WikiApi.get_images_for_comarca, WikiApi.catch_http_errors_on.
  destruct (WikiApi.get_image_titles (WikiApi.cp_comarca comarca) w)
    as [[image_titles | e] w1].
  - pose proof (for_titles_never_a_url image_titles comarca comarca w1
                  (or_introl eq_refl) (or_introl eq_refl)) as H.
    pose proof (for_titles_unmatched image_titles comarca w1) as Hun.
    destruct (WikiApi.for_titles image_titles comarca w1) as [[[[] | e] c'] w2];
      simpl in *.
    + destruct H as [Hm He]. repeat split; try assumption.
      intros ts w1' [= <- <-] Hall. specialize (Hun Hall).
      injection Hun as <- <-. reflexivity.
    + destruct H as [Hm He].
      destruct (is_http_exc e); simpl; repeat split; try assumption;
        intros ts w1' [= <- <-] Hall; specialize (Hun Hall); discriminate Hun.
  - destruct (is_http_exc e); simpl; repeat split; try (left; reflexivity);
      intros ts w1' H; discriminate H.
Qed.

Lemma get_images_for_comarca_never_a_url_witness :
  WikiApi.get_images_for_comarca bages_page bages_world =
    (Ok WikiApi.ReturnedNone, bages_page,
     with_sent bages_world [images_request "Bages"]).
Proof.
  apply (proj2 (proj2 (get_images_for_comarca_never_a_url bages_page bages_world))
           ["Fitxer:Localitzacio del Bages a Catalunya.svg"; "Fitxer:Montserrat.jpg"]).
  - reflexivity.
  - repeat constructor.
Defined.

(** ** The request of a download *)





(** ** The capital, again *)

(** X19. [get_comarca_capital_from_html] raises in two cases only: when
    its request raises, and when the parser rejects the markup of the page;
    a tree of any shape gives a string.  That string is falsy (empty) only
    when the first link of the row of the header cell has an empty text; so
    the two fallback messages count as a capital for [validate_data]. *)
Theorem get_capital_total (w : World) (page_url : string) :
  let rq := {| req_url := page_url; req_params := []; req_headers := [] |} in
  (forall e, fst (run.get_comarca_capital_from_html page_url w) = Raise e <->
             net w (sent w) rq = Raise e \/
             exists response,
               net w (sent w) rq = Ok response /\
               snd (html_parser w (content response)) = Raise e) /\
  (forall cap w',
     run.get_comarca_capital_from_html page_url w = (Ok cap, w') ->
     PyStr.truthy (Some cap) = false ->
     exists response records soup row th parent link,
       net w (sent w) rq = Ok response /\
       html_parser w (content response) = (records, Ok soup) /\
       first_below is_capital_header soup row th /\
       first_below is_link row parent link /\
       get_text link = EmptyString).
Proof.
  intros rq.
  unfold run.get_comarca_capital_from_html, bind, requests_get, BeautifulSoup.
  fold rq.
  destruct (net w (sent w) rq) as [response | e0]; cbv iota beta.
  - change (html_parser (with_sent w (sent w ++ [rq]))) with (html_parser w).
    destruct (html_parser w (content response)) as [records [soup | e1]]
      eqn:Hparse; cbv iota beta.
    + assert (Hnoraise : forall e : exn,
                Ok response = Raise e \/
                (exists response0 : Response,
                   Ok response = Ok response0 /\
                   snd (html_parser w (content response0)) = Raise e) -> False).
      { intros e [H | (r0 & Hr & H)]; [discriminate H |].
        injection Hr as <-. rewrite Hparse in H. discriminate H. }
      destruct (soup_find soup "th" (Some "Capital")) as [[row th] |] eqn:Hth.
      * destruct (soup_find row "a" None) as [[parent link] |] eqn:Hlink;
          unfold ret; simpl.
        -- split; [intros e; split; [discriminate | intros H; destruct (Hnoraise e H)] |].
           intros cap w' [= <- _] Hfalsy.
           exists response, records, soup, row, th, parent, link.
           split; [reflexivity |]. split; [exact Hparse |].
           split; [apply (soup_find_first _ _ _ tag_matches_header), Hth |].
           split; [apply (soup_find_first _ _ _ tag_matches_link), Hlink |].
           destruct (get_text link); [reflexivity | discriminate].
        -- split; [intros e; split; [discriminate | intros H; destruct (Hnoraise e H)] |].
           intros cap w' [= <- _] Hfalsy. discriminate.
      * unfold ret; simpl.
        split; [intros e; split; [discriminate | intros H; destruct (Hnoraise e H)] |].
        intros cap w' [= <- _] Hfalsy. discriminate.
    + simpl. split.
      * intros e. split.
        -- intros [= <-]. right. exists response. rewrite Hparse.
           split; reflexivity.
        -- intros [H | (r0 & Hr & H)]; [discriminate H |].
           injection Hr as <-. rewrite Hparse in H. simpl in H. congruence.
      * intros cap w' H. discriminate H.
  - simpl. split.
    + intros e. split.
      * intros [= <-]. left. reflexivity.
      * intros [H | (r0 & H & _)]; [congruence | discriminate H].
    + intros cap w' H. discriminate H.
Qed.

Lemma get_capital_total_witness :
  fst (run.get_comarca_capital_from_html "https://ca.wikipedia.org/wiki/Bages"
         rejecting)
  = Raise (Exn ParserRejectedMarkup "expected name token").
Proof.
  apply (proj1 (get_capital_total rejecting "https://ca.wikipedia.org/wiki/Bages")).
  right. eexists. split; reflexivity.
Defined.

(** The parser's own warning is in the log when it rejects a page. *)
Example get_capital_rejected_page :
  run.get_comarca_capital_from_html "https://ca.wikipedia.org/wiki/Bages" rejecting =
    (Raise (Exn ParserRejectedMarkup "expected name token"),
     with_log
       (with_sent rejecting
          [{| req_url := "https://ca.wikipedia.org/wiki/Bages";
              req_params := []; req_headers := [] |}])
       [(WARNING, "Some characters could not be decoded, and were replaced with REPLACEMENT CHARACTER.")]).
Proof. reflexivity. Qed.

(** ** The requests of an assembly *)








(** ** From an assembled record to its note *)

Lemma media_basename slug kind :
  PyStr.contains "/" slug = false -> PyStr.contains "/" kind = false ->
  path_name ("imgs/" ++ slug ++ "_" ++ kind ++ ".svg")
    = slug ++ "_" ++ kind ++ ".svg".
Proof.
  intros Hslug Hkind.
  change ("imgs/" ++ slug ++ "_" ++ kind ++ ".svg")
    with ("imgs" ++ "/" ++ (slug ++ "_" ++ kind ++ ".svg")).
  apply path_name_basename.
  - rewrite !contains_char_app, Hslug, Hkind. reflexivity.
  - intros H. apply (f_equal String.length) in H.
    rewrite !length_app_string in H. simpl in H. lia.
  - intros H. apply (f_equal String.length) in H.
    rewrite !length_app_string in H. simpl in H. lia.
Qed.

(** X21. The note of an assembled record names its images by the slug: for
    a comarca whose name has no slash, a record that holds the two local
    paths set by [get_comarca_data] gives a note whose image tags point to
    <slug>_escut.svg and <slug>_map.svg, the names under which the package
    stores the two files. *)
Theorem get_note_of_assembled_record (model : Model) (comarca_name : string)
    (cap : option string) :
  let slug := PyStr.replace " " "_" comarca_name in
  PyStr.contains "/" comarca_name = false ->
  run.get_note model
    {| comarca := comarca_name; capital := cap;
       map_url := Some ("imgs/" ++ slug ++ "_map.svg");
       escut_url := Some ("imgs/" ++ slug ++ "_escut.svg") |} =
  Ok {| note_model := model;
        note_fields :=
          [ cap; Some EmptyString; Some EmptyString; Some comarca_name;
            Some EmptyString;
            Some ("<img src=" ++ run.dquote ++ (slug ++ "_escut.svg")
                  ++ run.dquote ++ ">");
            Some EmptyString;
            Some ("<img src=" ++ run.dquote ++ (slug ++ "_map.svg")
                  ++ run.dquote ++ ">") ] |}.
Proof.
  intros slug Hname.
  assert (Hslug : PyStr.contains "/" slug = false).
  { subst slug. rewrite (proj2 (proj2 (proj2 (slug_facts comarca_name)))).
    exact Hname. }
  unfold run.get_note. cbn [escut_url map_url capital comarca run.Path rbind].
  pose proof (media_basename slug "escut" Hslug eq_refl) as He.
  pose proof (media_basename slug "map" Hslug eq_refl) as Hm.
  change ("imgs/" ++ slug ++ "_escut.svg")
    with ("imgs/" ++ slug ++ "_" ++ "escut" ++ ".svg").
  change ("imgs/" ++ slug ++ "_map.svg")
    with ("imgs/" ++ slug ++ "_" ++ "map" ++ ".svg").
  rewrite He, Hm. reflexivity.
Qed.

Lemma get_note_of_assembled_record_witness :
  run.get_note (run.create_model [] "css")
    {| comarca := "Alt Camp"; capital := Some "Valls";
       map_url := Some "imgs/Alt_Camp_map.svg";
       escut_url := Some "imgs/Alt_Camp_escut.svg" |} =
  Ok {| note_model := run.create_model [] "css";
        note_fields :=
          [ Some "Valls"; Some EmptyString; Some EmptyString; Some "Alt Camp";
            Some EmptyString;
            Some ("<img src=" ++ run.dquote ++ "Alt_Camp_escut.svg"
                  ++ run.dquote ++ ">");
            Some EmptyString;
            Some ("<img src=" ++ run.dquote ++ "Alt_Camp_map.svg"
                  ++ run.dquote ++ ">") ] |}.
Proof.
  apply (get_note_of_assembled_record (run.create_model [] "css") "Alt Camp"
           (Some "Valls")).
  reflexivity.
Defined.

(** ** The loop of [main] *)

Lemma get_comarca_data_comarca comarca_name w data w' :
  run.get_comarca_data comarca_name w = (Ok data, w') ->
  comarca data = comarca_name /\ is_Some (capital data).
Proof.
  unfold run.get_comarca_data, bind.
  destruct (run.get_image_titles comarca_name w) as [[images | e] w1];
    [| discriminate].
  destruct (mapM run.get_image_info _ w1) as [[map_urls | e] w2]; [| discriminate].
  destruct (mapM run.get_image_info _ w2) as [[escut_urls | e] w3]; [| discriminate].
  destruct (run.get_comarca_capital_from_html _ w3) as [[cap | e] w4];
    [| discriminate].
  destruct (store_media_spec comarca_name (PyStr.replace " " "_" comarca_name)
              (mkComarcaData comarca_name (Some cap)) map_urls "map" w4)
    as (w5 & -> & _).
  match goal with
  | |- context [run.store_media _ _ ?d escut_urls "escut" w5] =>
      destruct (store_media_spec comarca_name
                  (PyStr.replace " " "_" comarca_name) d escut_urls "escut" w5)
        as (w6 & -> & _)
  end.
  intros [= <- _].
  destruct map_urls, escut_urls; simpl; split; try reflexivity; eexists; reflexivity.
Qed.

Lemma mapM_Forall2 {A B} (f : A -> M B) (P : A -> B -> Prop) l :
  (forall a w b w', f a w = (Ok b, w') -> P a b) ->
  forall w bs w', mapM f l w = (Ok bs, w') -> Forall2 P l bs.
Proof.
  intros Hf. induction l as [| a l IH]; intros w bs w'; cbn [mapM].
  - intros [= <- _]. constructor.
  - unfold bind. destruct (f a w) as [[b | e] w1] eqn:Ha; [| discriminate].
    destruct (mapM f l w1) as [[bs' | e] w2] eqn:Hl; [| discriminate].
    intros [= <- _]. constructor; [eapply Hf, Ha | eapply IH, Hl].
Qed.

Lemma mapM_first_raise {A B} (f : A -> M B) a l w e w' :
  f a w = (Raise e, w') -> mapM f (a :: l) w = (Raise e, w').
Proof. intros H. cbn [mapM]. unfold bind. rewrite H. reflexivity. Qed.

(** X22. The loop of [main] gives one record per category kept, in the
    order of the listing; each record is named after its category and has a
    capital set.  There is no partial result: when the assembly of the first
    comarca raises, so does the loop, with the same exception. *)
Theorem assemble_records_spec (lower : string -> string) (wiki : Wikipedia)
    (w : World) :
  (forall data w',
     packaging.assemble_records lower wiki w = (Ok data, w') ->
     Forall2 (fun page c =>
                comarca c = packaging.comarca_title page /\ is_Some (capital c))
             (run.get_comarques_categories lower wiki) data) /\
  (forall page pages e w',
     run.get_comarques_categories lower wiki = page :: pages ->
     run.get_comarca_data (packaging.comarca_title page) w = (Raise e, w') ->
     packaging.assemble_records lower wiki w = (Raise e, w')).
Proof.
  unfold packaging.assemble_records. split.
  - intros data w'. apply mapM_Forall2.
    intros page w0 c w0' H. apply (get_comarca_data_comarca _ _ _ _ H).
  - intros page pages e w' -> H. apply mapM_first_raise, H.
Qed.

Lemma assemble_records_spec_witness :
  packaging.assemble_records PyStr.lower sample_wiki offline =
    (Raise (Exn ConnectionError "Network is unreachable"),
     with_sent offline [images_request "Bages"]).
Proof.
  eapply (proj2 (assemble_records_spec PyStr.lower sample_wiki offline));
    reflexivity.
Defined.

(** X23. What the alternate [get_image_info] can do.  It never returns a
    URL.  When the media repository answers and the answer decodes, the call
    raises an [AttributeError], because it reads [.text] off the decoded
    answer; when the request fails with an exception of the [requests]
    family, it returns [None] and logs one error naming [get_image_info]. *)
Theorem alternate_get_image_info_outcomes (w : World) (image_title : string) :
  let rq := resolve_request image_title in
  let w1 := with_sent w (sent w ++ [rq]) in
  (forall u, fst (WikiApi.get_image_info image_title w) <> Ok (Some u)) /\
  (forall r response,
     net w (sent w) rq = Ok r -> json_decode w (content r) = Ok response ->
     WikiApi.get_image_info image_title w =
       (Raise (Exn AttributeError "'dict' object has no attribute 'text'"), w1)) /\
  (forall e,
     net w (sent w) rq = Raise e -> is_http_exc e = true ->
     WikiApi.get_image_info image_title w =
       (Ok None,
        with_log w1 (log w ++ [(ERROR, "HTTP exception in get_image_info: "
                                       ++ exn_str e)]))).
Proof.
  intros rq w1. split; [intros u; apply alternate_get_image_info_no_url |].
  subst rq w1.
  unfold WikiApi.get_image_info, WikiApi.catch_http_errors, try_except, bind,
    requests_get, json, lift, WikiApi.response_text, WikiApi.commons_api_url,
    resolve_request.
  fold (imageinfo_request (PyStr.replace "Fitxer:" "File:" image_title)).
  split.
  - intros r response -> Hjson. simpl. rewrite Hjson. reflexivity.
  - intros e -> He. rewrite He. reflexivity.
Qed.

Lemma alternate_get_image_info_outcomes_witness :
  WikiApi.get_image_info "Fitxer:Escut del Bages.svg" unknown_image_world =
    (Raise (Exn AttributeError "'dict' object has no attribute 'text'"),
     with_sent unknown_image_world [resolve_request "Fitxer:Escut del Bages.svg"]).
Proof.
  eapply (proj1 (proj2 (alternate_get_image_info_outcomes unknown_image_world
                          "Fitxer:Escut del Bages.svg")));
    reflexivity.
Defined.
